(** * Order validation, simulated OCO placement and the replay backtester

    A shallow embedding of three Python modules of the trading bot:
    - [src/validation.py]      ([OrderValidator.validate_order_params]),
    - [src/strategies/oco.py]  ([place_simulated_oco_order]),
    - [tests/backtesting/test_strategies.py] (classes [Order], [Backtester]),
    followed by the properties proved about them.

    Conventions of the embedding.
    - [decimal.Decimal] values are pairs coefficient/exponent; arithmetic is
      the exact arithmetic Python performs while results fit the context
      precision (28 significant digits by default).
    - Prices and quantities of the backtester are Python floats; they are
      read here as the rationals they denote, with exact comparison and
      arithmetic (no NaN, no rounding).
    - Objects live in a store indexed by references, so that the two legs of
      an OCO pair alias each other the way Python objects do.
    - [log.*] and [print] calls are recorded as events. *)

From Stdlib Require Import ZArith QArith Qpower Qround Lia String Ascii.
From stdpp Require Import base option list gmap strings.

Local Open Scope string_scope.
Local Open Scope list_scope.
Local Open Scope Z_scope.

(* ===================================================================== *)
(** * [decimal.Decimal]                                                  *)
(* ===================================================================== *)

Module decimal.

(** A finite decimal number [coef * 10 ^ expo] (the sign is carried by the
    coefficient). *)
Record Decimal := mkDecimal { coef : Z; expo : Z }.

(** The coefficient of [d] once its exponent is lowered to [e <= expo d]. *)
Definition scale (d : Decimal) (e : Z) : Z := coef d * 10 ^ (expo d - e).

(** [a < b] *)
Definition lt (a b : Decimal) : bool :=
  let e := Z.min (expo a) (expo b) in scale a e <? scale b e.

(** [a > b] *)
Definition gt (a b : Decimal) : bool := lt b a.

(** [a - b]: the exponent of the result is the smaller exponent. *)
Definition sub (a b : Decimal) : Decimal :=
  let e := Z.min (expo a) (expo b) in mkDecimal (scale a e - scale b e) e.

(** [a + b] *)
Definition add (a b : Decimal) : Decimal :=
  let e := Z.min (expo a) (expo b) in mkDecimal (scale a e + scale b e) e.

(** [a % b]: the remainder of the division truncated towards zero (it has
    the sign of [a]); [decimal.InvalidOperation] when [b] is zero. *)
Definition rem (a b : Decimal) : option Decimal :=
  if coef b =? 0 then None
  else let e := Z.min (expo a) (expo b) in
       Some (mkDecimal (Z.rem (scale a e) (scale b e)) e).

(** [d != 0] *)
Definition nonzero (d : Decimal) : bool := negb (coef d =? 0).

(** [a.quantize(b, rounding=ROUND_DOWN)]: [a] rewritten with the exponent
    of [b], extra digits discarded (rounding towards zero). Only the
    exponent of [b] matters, not its coefficient. *)
Definition quantize_ROUND_DOWN (a b : Decimal) : Decimal :=
  mkDecimal
    (if expo b <=? expo a then coef a * 10 ^ (expo a - expo b)
     else Z.quot (coef a) (10 ^ (expo b - expo a)))
    (expo b).

(** The rational number a decimal denotes. *)
Definition value (d : Decimal) : Q :=
  (inject_Z (coef d) * (10 # 1) ^ expo d)%Q.

End decimal.

Import decimal.

(* ===================================================================== *)
(** * [src/validation.py]                                                *)
(* ===================================================================== *)

Module validation.

(** One entry of [symbol_info['filters']], a union tagged by
    ['filterType']; the numeric fields are the decimal strings of the
    exchange, already read by [Decimal(...)]. *)
Inductive Filter :=
| LOT_SIZE (minQty maxQty stepSize : Decimal)
| PRICE_FILTER (minPrice maxPrice tickSize : Decimal)
| OTHER_FILTER (filterType : string).

Definition filterType (f : Filter) : string :=
  match f with
  | LOT_SIZE _ _ _ => "LOT_SIZE"
  | PRICE_FILTER _ _ _ => "PRICE_FILTER"
  | OTHER_FILTER t => t
  end.

Record SymbolInfo := mkSymbolInfo { symbol : string; filters : list Filter }.

(** [self.exchange_info]: [None] when the fetch failed, otherwise the list
    under ['symbols']. *)
Definition ExchangeInfo := option (list SymbolInfo).

(** The structured-log calls of the module, one constructor per call. *)
Inductive LogEntry :=
| warning_exchange_info_not_available
| error_symbol_not_found (symbol : string)
| error_quantity_too_small (quantity min_qty : Decimal)
| error_quantity_too_large (quantity max_qty : Decimal)
| error_invalid_quantity_precision (quantity step_size : Decimal)
| info_valid_quantity_might_be (valid_qty : Decimal)
| error_price_too_low (price min_price : Decimal)
| error_price_too_high (price max_price : Decimal)
| error_invalid_price_precision (price tick_size : Decimal)
| info_order_parameters_valid
    (symbol : string) (quantity : Decimal) (price : option Decimal).

Inductive Exception := InvalidOperation | KeyError.

(** How a call ends. *)
Inductive Outcome := Return (b : bool) | Raise (e : Exception).

(** Within the body: fall through to the next statement, or leave. *)
Inductive Flow := Next | Leave (o : Outcome).

Definition get_symbol_info (exchange_info : ExchangeInfo) (sym : string)
  : option SymbolInfo * list LogEntry :=
  match exchange_info with
  | None => (None, [warning_exchange_info_not_available])
  | Some symbols =>
      (List.find (fun s => String.eqb (symbol s) sym) symbols, [])
  end.

(** [{f['filterType']: f for f in symbol_info['filters']}]: a later filter
    replaces an earlier one of the same type. *)
Definition filters_dict (fs : list Filter) : gmap string Filter :=
  foldl (fun d f => <[filterType f := f]> d) ∅ fs.

(** The block "Validate quantity against LOT_SIZE filter". *)
Definition validate_lot_size
    (filters : gmap string Filter) (quantity : Decimal)
  : Flow * list LogEntry :=
  match filters !! "LOT_SIZE" with
  | None => (Next, [])
  | Some (LOT_SIZE min_qty max_qty step_size) =>
      if lt quantity min_qty then
        (Leave (Return false), [error_quantity_too_small quantity min_qty])
      else if gt quantity max_qty then
        (Leave (Return false), [error_quantity_too_large quantity max_qty])
      else
        let base_qty := sub quantity min_qty in
        match rem base_qty step_size with
        | None => (Leave (Raise InvalidOperation), [])
        | Some r =>
            if nonzero r then
              let quantized := quantize_ROUND_DOWN base_qty step_size in
              let valid_qty := add quantized min_qty in
              (Leave (Return false),
               [error_invalid_quantity_precision quantity step_size;
                info_valid_quantity_might_be valid_qty])
            else (Next, [])
        end
  | Some _ => (Leave (Raise KeyError), [])
  end.

(** The block "Validate price against PRICE_FILTER if provided". *)
Definition validate_price_filter
    (filters : gmap string Filter) (price : option Decimal)
  : Flow * list LogEntry :=
  match price with
  | None => (Next, [])
  | Some price =>
      match filters !! "PRICE_FILTER" with
      | None => (Next, [])
      | Some (PRICE_FILTER min_price max_price tick_size) =>
          if lt price min_price then
            (Leave (Return false), [error_price_too_low price min_price])
          else if gt price max_price && gt max_price (mkDecimal 0 0) then
            (Leave (Return false), [error_price_too_high price max_price])
          else
            match rem (sub price min_price) tick_size with
            | None => (Leave (Raise InvalidOperation), [])
            | Some r =>
                if nonzero r then
                  (Leave (Return false),
                   [error_invalid_price_precision price tick_size])
                else (Next, [])
            end
      | Some _ => (Leave (Raise KeyError), [])
      end
  end.

Definition validate_order_params
    (exchange_info : ExchangeInfo)
    (sym : string) (quantity : Decimal) (price : option Decimal)
  : Outcome * list LogEntry :=
  let (symbol_info, log0) := get_symbol_info exchange_info sym in
  match symbol_info with
  | None => (Return false, log0 ++ [error_symbol_not_found sym])
  | Some symbol_info =>
      let filters := filters_dict (filters symbol_info) in
      match validate_lot_size filters quantity with
      | (Leave o, log1) => (o, log0 ++ log1)
      | (Next, log1) =>
          match validate_price_filter filters price with
          | (Leave o, log2) => (o, log0 ++ log1 ++ log2)
          | (Next, log2) =>
              (Return true,
               log0 ++ log1 ++ log2
                 ++ [info_order_parameters_valid sym quantity price])
          end
      end
  end.

End validation.

(* ===================================================================== *)
(** * Python helpers                                                     *)
(* ===================================================================== *)

Module python.

(** [str.upper] on ASCII letters. *)
Definition upper_ascii (c : ascii) : ascii :=
  let n := nat_of_ascii c in
  if ((97 <=? n) && (n <=? 122))%nat then ascii_of_nat (n - 32) else c.

Fixpoint upper (s : string) : string :=
  match s with
  | EmptyString => EmptyString
  | String c s' => String (upper_ascii c) (upper s')
  end.

End python.

(* ===================================================================== *)
(** * [src/strategies/oco.py]                                            *)
(* ===================================================================== *)

Module oco.

(** [binance.exceptions.BinanceAPIException] *)
Record BinanceAPIException := mkAPIException { code : Z; message : string }.

(** The keyword arguments of [client.futures_create_order]. *)
Record CreateOrder := mkCreateOrder {
  symbol : string;
  side : string;
  type : string;
  stopPrice : Q;
  quantity : Q;
  reduceOnly : bool
}.

(** The dictionary the exchange answers with; only ['orderId'] is read,
    through [.get], so it may be absent. *)
Record OrderResponse := mkOrderResponse { orderId : option Z }.

(** What the function does to the outside, in program order: calls of the
    client, structured-log calls and [print] calls. *)
Inductive Event :=
| call_futures_create_order (request : CreateOrder)
| call_futures_cancel_order (symbol : string) (orderId : option Z)
| info_attempting_to_place
| info_placing_take_profit
| info_take_profit_placed (order_id : option Z)
| print_take_profit_placed (tp_order : OrderResponse)
| error_failed_take_profit (error_code : Z) (error_message : string)
| print_error_take_profit (e : BinanceAPIException)
| info_placing_stop_loss
| info_stop_loss_placed (order_id : option Z)
| print_stop_loss_placed (sl_order : OrderResponse)
| error_failed_stop_loss (error_code : Z) (error_message : string)
| print_error_stop_loss (e : BinanceAPIException)
| warning_cancelled_orphaned_take_profit
| print_cancelled_take_profit
| error_failed_to_cancel_orphaned_take_profit (cancel_e : BinanceAPIException)
| print_CRITICAL_cancel_manually (orderId : option Z)
| info_placed_successfully
| print_IMPORTANT_both_placed
| print_must_monitor.

Section client.

(** The exchange behind the client: some state, and the two calls the
    function makes, each answering or raising
    [BinanceAPIException]. *)
Variable Exchange : Type.
Variable futures_create_order :
  CreateOrder -> Exchange -> (BinanceAPIException + OrderResponse) * Exchange.
Variable futures_cancel_order :
  string -> option Z -> Exchange -> (BinanceAPIException + unit) * Exchange.

(** Returns [orders_placed] or [None], with the events emitted and the
    exchange as the calls left it. *)
Definition place_simulated_oco_order
    (symbol side : string) (quantity take_profit_price stop_loss_price : Q)
    (ex : Exchange)
  : option (list OrderResponse) * list Event * Exchange :=
  let tp_request :=
    mkCreateOrder symbol (python.upper side) "TAKE_PROFIT_MARKET"
                  take_profit_price quantity true in
  let ev0 := [info_attempting_to_place; info_placing_take_profit;
              call_futures_create_order tp_request] in
  match futures_create_order tp_request ex with
  | (inl e, ex1) =>
      (* If TP fails, we don't place the SL to avoid a dangling order *)
      (None,
       ev0 ++ [error_failed_take_profit (code e) (message e);
               print_error_take_profit e],
       ex1)
  | (inr tp_order, ex1) =>
      let ev1 := ev0 ++ [info_take_profit_placed (orderId tp_order);
                         print_take_profit_placed tp_order] in
      let sl_request :=
        mkCreateOrder symbol (python.upper side) "STOP_MARKET"
                      stop_loss_price quantity true in
      let ev2 := ev1 ++ [info_placing_stop_loss;
                         call_futures_create_order sl_request] in
      match futures_create_order sl_request ex1 with
      | (inl e, ex2) =>
          let ev3 := ev2 ++ [error_failed_stop_loss (code e) (message e);
                             print_error_stop_loss e;
                             call_futures_cancel_order
                               symbol (orderId tp_order)] in
          (* If SL fails, we should try to cancel the TP order we just
             placed *)
          match futures_cancel_order symbol (orderId tp_order) ex2 with
          | (inr _, ex3) =>
              (None,
               ev3 ++ [warning_cancelled_orphaned_take_profit;
                       print_cancelled_take_profit],
               ex3)
          | (inl cancel_e, ex3) =>
              (None,
               ev3 ++ [error_failed_to_cancel_orphaned_take_profit cancel_e;
                       print_CRITICAL_cancel_manually (orderId tp_order)],
               ex3)
          end
      | (inr sl_order, ex2) =>
          (Some [tp_order; sl_order],
           ev2 ++ [info_stop_loss_placed (orderId sl_order);
                   print_stop_loss_placed sl_order;
                   info_placed_successfully;
                   print_IMPORTANT_both_placed;
                   print_must_monitor],
           ex2)
      end
  end.

End client.

End oco.

(* ===================================================================== *)
(** * [tests/backtesting/test_strategies.py]                             *)
(* ===================================================================== *)

Module test_strategies.

(** A row of the data frame gives a ['Timestamp IST'] and an
    ['Execution Price']. *)
Abbreviation Timestamp := Z (only parsing).

(** A reference to an [Order] object. *)
Abbreviation ref := nat (only parsing).

(** The four values [self.status] is ever assigned. *)
Inductive Status := PENDING | ACTIVE | FILLED | CANCELLED.

Record Order := mkOrder {
  order_type : string;
  side : string;
  quantity : Q;
  price : option Q;
  trigger_price : option Q;
  status : Status;
  created_at : option Timestamp;
  filled_at : option Timestamp;
  filled_price : option Q;
  oco_peer : option ref
}.

(** The [print] calls. *)
Inductive Output :=
| print_ACTIVATED (timestamp : Timestamp) (self : ref)
| print_FILLED (timestamp : Timestamp) (self : ref)
| print_CANCELLED (timestamp : Timestamp) (self : ref)
| print_Placed_OCO (take_profit_price stop_loss_price : Q)
| print_Starting_Backtest
| print_Simulating_initial_BUY (initial_buy_price : Q)
| print_Backtest_Finished.

(** [NoObject] is not a Python exception: it is how the model answers a
    reference that names no object of the store, which Python rules out. *)
Inductive Exception := ValueError | TypeError | IndexError | NoObject.

(** The objects, what was printed so far, and - as ghost state - the
    contents of the store after each write, oldest first. *)
Record Store := mkStore {
  objects : list Order;
  stdout : list Output;
  history : list (list Order)
}.

Inductive Result (A : Type) := Ok (a : A) | Raised (e : Exception).
Arguments Ok {A} a.
Arguments Raised {A} e.

(** Computations over a state [S] that may raise; the state reached when an
    exception is raised is kept. *)
Definition M (S A : Type) : Type := S -> Result A * S.

#[global] Instance M_ret {S} : MRet (M S) := fun A a s => (Ok a, s).

#[global] Instance M_bind {S} : MBind (M S) := fun A B f m s =>
  match m s with
  | (Ok a, s') => f a s'
  | (Raised e, s') => (Raised e, s')
  end.

Definition raise {S A} (e : Exception) : M S A := fun s => (Raised e, s).

Definition pass {S} : M S unit := mret tt.

(** ** Access to the store *)

Definition get (r : ref) : M Store Order := fun s =>
  match objects s !! r with
  | Some o => (Ok o, s)
  | None => (Raised NoObject, s)
  end.

(** Assignment to attributes of the object behind [r]. *)
Definition put (r : ref) (o : Order) : M Store unit := fun s =>
  let objs := <[r := o]> (objects s) in
  (Ok tt, mkStore objs (stdout s) (history s ++ [objs])).

(** A new object. *)
Definition alloc (o : Order) : M Store ref := fun s =>
  let objs := objects s ++ [o] in
  (Ok (length (objects s)), mkStore objs (stdout s) (history s ++ [objs])).

Definition print (e : Output) : M Store unit := fun s =>
  (Ok tt, mkStore (objects s) (stdout s ++ [e]) (history s)).

(** ** class Order *)

Definition set_status (o : Order) (st : Status) : Order :=
  mkOrder (order_type o) (side o) (quantity o) (price o) (trigger_price o)
          st (created_at o) (filled_at o) (filled_price o) (oco_peer o).

Definition set_created_at (o : Order) (t : Timestamp) : Order :=
  mkOrder (order_type o) (side o) (quantity o) (price o) (trigger_price o)
          (status o) (Some t) (filled_at o) (filled_price o) (oco_peer o).

Definition set_filled (o : Order) (t : Timestamp) (p : Q) : Order :=
  mkOrder (order_type o) (side o) (quantity o) (price o) (trigger_price o)
          FILLED (created_at o) (Some t) (Some p) (oco_peer o).

Definition set_oco_peer (o : Order) (peer : ref) : Order :=
  mkOrder (order_type o) (side o) (quantity o) (price o) (trigger_price o)
          (status o) (created_at o) (filled_at o) (filled_price o) (Some peer).

Definition is_buy (o : Order) : bool := String.eqb (side o) "BUY".

Definition is_sell (o : Order) : bool := String.eqb (side o) "SELL".

Definition is_done (o : Order) : bool :=
  match status o with
  | FILLED | CANCELLED => true
  | _ => false
  end.

Definition status_eqb (a b : Status) : bool :=
  match a, b with
  | PENDING, PENDING | ACTIVE, ACTIVE
  | FILLED, FILLED | CANCELLED, CANCELLED => true
  | _, _ => false
  end.

Definition _validate (o : Order) : Result unit :=
  if (String.eqb (order_type o) "LIMIT" || String.eqb (order_type o) "STOP_LIMIT")
       && negb (bool_decide (is_Some (price o)))
  then Raised ValueError
  else if String.eqb (order_type o) "STOP_LIMIT"
            && negb (bool_decide (is_Some (trigger_price o)))
  then Raised ValueError
  else Ok tt.

(** [Order(order_type, side, quantity, price, trigger_price)] *)
Definition Order__init__
    (order_type side : string) (quantity : Q) (price trigger_price : option Q)
  : M Store ref :=
  let o := mkOrder (python.upper order_type) (python.upper side) quantity
                   price trigger_price PENDING None None None None in
  match _validate o with
  | Raised e => raise e
  | Ok _ => alloc o
  end.

Definition link_oco_peer (self peer_order : ref) : M Store unit :=
  o ← get self;
  put self (set_oco_peer o peer_order);;
  p ← get peer_order;
  put peer_order (set_oco_peer p self).

Definition cancel (self : ref) (timestamp : Timestamp) : M Store unit :=
  o ← get self;
  if is_done o then pass
  else
    put self (set_status o CANCELLED);;
    print (print_CANCELLED timestamp self).

Definition fill (self : ref) (timestamp : Timestamp) (fill_price : Q)
  : M Store unit :=
  o ← get self;
  if status_eqb (status o) FILLED then pass
  else
    put self (set_filled o timestamp fill_price);;
    print (print_FILLED timestamp self);;
    match oco_peer o with
    | Some peer => cancel peer timestamp
    | None => pass
    end.

(** A comparison of the current price with an attribute that may be
    [None]: Python raises [TypeError] then. *)
Definition compare {S} (cmp : Q -> Q -> bool) (current_price : Q)
    (level : option Q) : M S bool :=
  match level with
  | Some l => mret (cmp current_price l)
  | None => raise TypeError
  end.

Definition ge (x y : Q) : bool := Qle_bool y x.
Definition le (x y : Q) : bool := Qle_bool x y.

(** [(self.is_buy and current_price `on_buy` level) or
     (self.is_sell and current_price `on_sell` level)],
    with the short-circuit evaluation of [and] and [or]. *)
Definition crossed {S} (o : Order) (on_buy on_sell : Q -> Q -> bool)
    (current_price : Q) (level : option Q) : M S bool :=
  b ← (if is_buy o then compare on_buy current_price level else mret false);
  if b : bool then mret true
  else if is_sell o then compare on_sell current_price level else mret false.

Definition update (self : ref) (timestamp : Timestamp) (current_price : Q)
  : M Store unit :=
  o ← get self;
  if is_done o then pass
  else
    o ← (match created_at o with
         | None => let o' := set_created_at o timestamp in
                   put self o';; mret o'
         | Some _ => mret o
         end);
    o ← (if String.eqb (order_type o) "STOP_LIMIT"
            && status_eqb (status o) PENDING
         then
           c ← crossed o ge le current_price (trigger_price o);
           if c : bool then
             let o' := set_status o ACTIVE in
             put self o';;
             print (print_ACTIVATED timestamp self);;
             mret o'
           else mret o
         else mret o);
    let is_active :=
      status_eqb (status o) ACTIVE || String.eqb (order_type o) "LIMIT" in
    if is_active then
      c ← crossed o le ge current_price (price o);
      if c : bool then fill self timestamp current_price else pass
    else pass.

(** ** class Backtester *)

(** An entry of [trade_log]. *)
Record Trade := mkTrade {
  Trade_Timestamp : option Timestamp;
  Trade_Type : string;
  Trade_Price : option Q
}.

Record Backtester := mkBacktester {
  initial_cash : Q;
  cash : Q;
  position_size : Q;
  trade_log : list Trade;
  _orders : list ref
}.

(** The backtester object together with the store its orders live in. *)
Record World := mkWorld { backtester : Backtester; store : Store }.

(** A method of [Order] called from a method of [Backtester]. *)
Definition call {A} (m : M Store A) : M World A := fun w =>
  let (r, s) := m (store w) in (r, mkWorld (backtester w) s).

Definition self_ : M World Backtester := fun w => (Ok (backtester w), w).

Definition assign (f : Backtester -> Backtester) : M World unit := fun w =>
  (Ok tt, mkWorld (f (backtester w)) (store w)).

Definition Backtester__init__ (initial_cash : Q) : Backtester :=
  mkBacktester initial_cash initial_cash 0 [] [].

Definition place_oco_order (quantity take_profit_price stop_loss_price : Q)
  : M World unit :=
  tp ← call (Order__init__ "LIMIT" "SELL" quantity (Some take_profit_price) None);
  sl ← call (Order__init__ "STOP_LIMIT" "SELL" quantity
                           (Some stop_loss_price) (Some stop_loss_price));
  call (link_oco_peer tp sl);;
  assign (fun b => mkBacktester (initial_cash b) (cash b) (position_size b)
                                (trade_log b) (_orders b ++ [tp; sl]));;
  call (print (print_Placed_OCO take_profit_price stop_loss_price)).

(** [order.filled_price * order.quantity]: [TypeError] on [None]. *)
Definition times_quantity (o : Order) : M World Q :=
  match filled_price o with
  | Some fp => mret (fp * quantity o)%Q
  | None => raise TypeError
  end.

Definition _execute_fill (order : ref) : M World unit :=
  o ← call (get order);
  (if is_buy o then
     amount ← times_quantity o;
     assign (fun b => mkBacktester (initial_cash b) (cash b - amount)%Q
                                   (position_size b + quantity o)%Q
                                   (trade_log b) (_orders b))
   else if is_sell o then
     amount ← times_quantity o;
     assign (fun b => mkBacktester (initial_cash b) (cash b + amount)%Q
                                   (position_size b - quantity o)%Q
                                   (trade_log b) (_orders b))
   else pass);;
  assign (fun b => mkBacktester (initial_cash b) (cash b) (position_size b)
                     (trade_log b
                        ++ [mkTrade (filled_at o) (side o) (filled_price o)])
                     (_orders b)).

(** The body of [for order in self._orders]. *)
Definition observe (order : ref) (timestamp : Timestamp) (current_price : Q)
  : M World unit :=
  call (update order timestamp current_price);;
  o ← call (get order);
  if status_eqb (status o) FILLED then _execute_fill order else pass.

(** [for order in self._orders: ...] *)
Fixpoint for_orders (orders : list ref) (timestamp : Timestamp)
    (current_price : Q) : M World unit :=
  match orders with
  | [] => pass
  | order :: rest =>
      observe order timestamp current_price;;
      for_orders rest timestamp current_price
  end.

Definition is_done_at (s : Store) (r : ref) : bool :=
  match objects s !! r with
  | Some o => is_done o
  | None => false
  end.

(** [self._orders = [o for o in self._orders if not o.is_done]] *)
Definition drop_done : M World unit := fun w =>
  assign (fun b => mkBacktester (initial_cash b) (cash b) (position_size b)
                     (trade_log b)
                     (List.filter (fun o => negb (is_done_at (store w) o))
                                  (_orders b))) w.

(** The body of [for i in range(len(data))]. *)
Definition tick (timestamp : Timestamp) (current_price : Q) : M World unit :=
  b ← self_;
  for_orders (_orders b) timestamp current_price;;
  drop_done.

(** [for i in range(len(data)): ...] over the rows of [data]. *)
Fixpoint replay (data : list (Timestamp * Q)) : M World unit :=
  match data with
  | [] => pass
  | (timestamp, current_price) :: rest =>
      tick timestamp current_price;; replay rest
  end.

Definition run (data : list (Timestamp * Q)) : M World unit :=
  call (print print_Starting_Backtest);;
  initial_buy_price ← (match data with
                       | (_, p) :: _ => mret p
                       | [] => raise IndexError
                       end);
  assign (fun b => mkBacktester (initial_cash b) (cash b) 1
                                (trade_log b) (_orders b));;
  assign (fun b => mkBacktester (initial_cash b)
                                (cash b - initial_buy_price * position_size b)%Q
                                (position_size b) (trade_log b) (_orders b));;
  call (print (print_Simulating_initial_BUY initial_buy_price));;
  let tp_price := (initial_buy_price * (105 # 100))%Q in
  let sl_price := (initial_buy_price * (98 # 100))%Q in
  place_oco_order 1 tp_price sl_price;;
  replay data;;
  call (print print_Backtest_Finished).

End test_strategies.

(* ===================================================================== *)
(** * Vocabulary of the properties                                       *)
(* ===================================================================== *)

(** ** Exact numbers *)

Module exact.

(** [x mod s == 0] on exact numbers: [s] is not zero and [x] is an integer
    multiple of it. *)
Definition multiple_of (x s : Q) : Prop :=
  ~ (s == 0)%Q /\ exists k : Z, (x == inject_Z k * s)%Q.

(** [x mod s] is defined and not zero. *)
Definition not_multiple_of (x s : Q) : Prop :=
  ~ (s == 0)%Q /\ ~ exists k : Z, (x == inject_Z k * s)%Q.

(** [q - mn] floored to a multiple of [st], plus [mn]. *)
Definition floor_to_step (q mn st : Q) : Q :=
  (mn + inject_Z (Qfloor ((q - mn) / st)) * st)%Q.

End exact.

(** ** The steps of an observation *)

Module observation.
Import test_strategies.

(** The store once [put r o] has run. *)
Definition after_put (r : ref) (o : Order) (s : Store) : Store :=
  mkStore (<[r := o]> (objects s)) (stdout s)
          (history s ++ [<[r := o]> (objects s)]).

(** The store once [print e] has run. *)
Definition after_print (e : Output) (s : Store) : Store :=
  mkStore (objects s) (stdout s ++ [e]) (history s).

(** [created_at] set on the first observation. *)
Definition stamped (o : Order) (t : Timestamp) : Order :=
  match created_at o with
  | None => set_created_at o t
  | Some _ => o
  end.

(** The value of [(is_buy and p `on_buy` level) or (is_sell and p `on_sell`
    level)]; [None] stands for [TypeError]. *)
Definition crossing (o : Order) (on_buy on_sell : Q -> Q -> bool) (p : Q)
    (level : option Q) : option bool :=
  if is_buy o then
    match level with
    | Some l => if on_buy p l then Some true
                else if is_sell o then Some (on_sell p l) else Some false
    | None => None
    end
  else if is_sell o then
    match level with
    | Some l => Some (on_sell p l)
    | None => None
    end
  else Some false.

(** Whether a pending stop-limit order is activated by price [p]. *)
Definition activation (o : Order) (p : Q) : option bool :=
  if String.eqb (order_type o) "STOP_LIMIT" && status_eqb (status o) PENDING
  then crossing o ge le p (trigger_price o)
  else Some false.

(** The local [is_active] of [update]. *)
Definition eligible (o : Order) : bool :=
  status_eqb (status o) ACTIVE || String.eqb (order_type o) "LIMIT".

(** The store after the first statements of [update] on an order that is
    not done: [created_at] is set, ... *)
Definition stamp (self : ref) (t : Timestamp) (o : Order) (s : Store) : Store :=
  match created_at o with
  | None => after_put self (stamped o t) s
  | Some _ => s
  end.

(** ... and a stop-limit order whose trigger is crossed becomes active. *)
Definition activated (act : bool) (o : Order) : Order :=
  if act then set_status o ACTIVE else o.

Definition activate (self : ref) (t : Timestamp) (act : bool) (o : Order)
    (s : Store) : Store :=
  if act
  then after_print (print_ACTIVATED t self) (after_put self (activated act o) s)
  else s.

End observation.

(** ** OCO pairs *)

Module pairs.
Import test_strategies.

Definition status_at (objs : list Order) (r : ref) : option Status :=
  status <$> objs !! r.

(** The two orders name each other as [oco_peer]. *)
Definition linked (a b : ref) (objs : list Order) : Prop :=
  exists oa ob, objs !! a = Some oa /\ objs !! b = Some ob /\
                oco_peer oa = Some b /\ oco_peer ob = Some a.

Definition both_filled (a b : ref) (objs : list Order) : Prop :=
  status_at objs a = Some FILLED /\ status_at objs b = Some FILLED.

(** A filled leg has a cancelled peer. *)
Definition settled (a b : ref) (objs : list Order) : Prop :=
  (status_at objs a = Some FILLED -> status_at objs b = Some CANCELLED) /\
  (status_at objs b = Some FILLED -> status_at objs a = Some CANCELLED).

(** What the replay keeps true of an OCO pair: the legs stay linked, a
    filled leg has its peer cancelled, and no store ever written had both
    legs filled. *)
Definition oco_invariant (a b : ref) (s : Store) : Prop :=
  linked a b (objects s) /\ settled a b (objects s) /\
  Forall (fun objs => ~ both_filled a b objs) (history s).

End pairs.

(** ** Events of the OCO placement *)

Module placement.
Import oco.

(** A call of [client.futures_cancel_order]. *)
Definition is_cancel_call (e : Event) : bool :=
  match e with
  | call_futures_cancel_order _ _ => true
  | _ => false
  end.


End placement.

(** ** Concrete rules, exchanges and orders *)

Module scenarios.

(** Scenario A: [{minQty=0.001, maxQty=1000, stepQty=0.001}], with a price
    filter whose [maxPrice] is 0. *)
Definition rule_A : validation.ExchangeInfo :=
  Some [validation.mkSymbolInfo "BTCUSDT"
          [validation.LOT_SIZE (mkDecimal 1 (-3)) (mkDecimal 1000 0)
                               (mkDecimal 1 (-3));
           validation.PRICE_FILTER (mkDecimal 1 (-1)) (mkDecimal 0 0)
                                   (mkDecimal 1 (-1))]].

Definition symbol_A : validation.SymbolInfo :=
  validation.mkSymbolInfo "BTCUSDT"
    [validation.LOT_SIZE (mkDecimal 1 (-3)) (mkDecimal 1000 0)
                         (mkDecimal 1 (-3));
     validation.PRICE_FILTER (mkDecimal 1 (-1)) (mkDecimal 0 0)
                             (mkDecimal 1 (-1))].

(** A lot size whose step, 0.5, is not a power of ten. *)
Definition rule_half : validation.ExchangeInfo :=
  Some [validation.mkSymbolInfo "XYZUSDT"
          [validation.LOT_SIZE (mkDecimal 5 (-1)) (mkDecimal 1000 0)
                               (mkDecimal 5 (-1))]].

(** The exchange accepts the take-profit leg under id 1 and refuses the
    stop-loss leg. *)
Definition error_B : oco.BinanceAPIException :=
  oco.mkAPIException (-1001) "Internal error; unable to process your request.".



(** The exchange refuses the take-profit leg. *)
Definition create_A_fails (request : oco.CreateOrder) (ex : unit)
  : (oco.BinanceAPIException + oco.OrderResponse) * unit :=
  (inl error_B, ex).

Definition cancel_ok (symbol : string) (orderId : option Z) (ex : unit)
  : (oco.BinanceAPIException + unit) * unit :=
  (inr tt, ex).



Import test_strategies.

Definition empty_store : Store := mkStore [] [] [].

Definition limit_sell_105 : Order :=
  mkOrder "LIMIT" "SELL" 1 (Some 105%Q) None PENDING None None None None.

Definition stop_sell_98 : Order :=
  mkOrder "STOP_LIMIT" "SELL" 1 (Some 98%Q) (Some 98%Q)
          PENDING None None None None.

Definition stop_buy_110 : Order :=
  mkOrder "STOP_LIMIT" "BUY" 1 (Some 110%Q) (Some 108%Q)
          PENDING None None None None.

(** A backtester with 10000 in cash and no order yet. *)
Definition fresh_world : World :=
  mkWorld (Backtester__init__ 10000) empty_store.

(** The same after [place_oco_order(1.0, 105, 98)]: the take-profit leg is
    object 0, the stop-loss leg object 1. *)
Definition world_with_pair : World :=
  snd (place_oco_order 1 105 98 fresh_world).

(** Scenario B: the ticks 100, 102, 97, 99. *)
Definition ticks_B : list (Timestamp * Q) :=
  [(0, 100%Q); (1, 102%Q); (2, 97%Q); (3, 99%Q)].

End scenarios.

(** ** Requests sent while placing an OCO pair *)

Module requests.
Import oco.

(** The order requests among the events, in the order they were sent. *)
Definition create_requests (events : list Event) : list CreateOrder :=
  flat_map (fun e => match e with
                     | call_futures_create_order r => [r]
                     | _ => []
                     end) events.

(** The cancellations among the events: symbol and order id. *)
Definition cancel_requests (events : list Event)
  : list (string * option Z) :=
  flat_map (fun e => match e with
                     | call_futures_cancel_order s i => [(s, i)]
                     | _ => []
                     end) events.

End requests.

(** ** The life of an order *)

Module lifecycle.
Import test_strategies.

(** The terms of an order, as given to the constructor, and its peer. *)
Definition same_terms (o o' : Order) : Prop :=
  order_type o' = order_type o /\ side o' = side o /\
  quantity o' = quantity o /\ price o' = price o /\
  trigger_price o' = trigger_price o /\ oco_peer o' = oco_peer o.

(** The steps of the status: PENDING to ACTIVE, either of them to FILLED or
    CANCELLED, or none. *)
Definition moves (a b : Status) : bool :=
  match a, b with
  | PENDING, _ => true
  | ACTIVE, (ACTIVE | FILLED | CANCELLED) => true
  | FILLED, FILLED => true
  | CANCELLED, CANCELLED => true
  | _, _ => false
  end.

(** How an order may differ after a call from what it was before. *)
Definition evolves (o o' : Order) : Prop :=
  same_terms o o' /\ moves (status o) (status o') = true /\
  (forall t, created_at o = Some t -> created_at o' = Some t) /\
  (status o' = status o ->
   filled_at o' = filled_at o /\ filled_price o' = filled_price o).

(** What the constructor checks, and what the methods keep: a LIMIT or
    STOP_LIMIT order has a price, a STOP_LIMIT order a trigger price, only
    a STOP_LIMIT order is ever ACTIVE, and a FILLED order has a fill
    price. *)
Definition well_formed (o : Order) : Prop :=
  (order_type o = "LIMIT" \/ order_type o = "STOP_LIMIT" ->
   is_Some (price o)) /\
  (order_type o = "STOP_LIMIT" -> is_Some (trigger_price o)) /\
  (status o = ACTIVE -> order_type o = "STOP_LIMIT") /\
  (status o = FILLED -> is_Some (filled_price o)).

(** Every object of the store is well formed and its peer, if any, is an
    object of the store. *)
Definition well_formed_store (s : Store) : Prop :=
  forall r o, objects s !! r = Some o ->
    well_formed o /\
    (forall peer, oco_peer o = Some peer -> is_Some (objects s !! peer)).

(** ... and the open orders are objects of the store. *)
Definition well_formed_world (w : World) : Prop :=
  well_formed_store (store w) /\
  Forall (fun r => is_Some (objects (store w) !! r)) (_orders (backtester w)).

End lifecycle.

(** ** The pair placed by [run] *)

Module outcome.
Import test_strategies.



End outcome.

(** ** The figures of the report *)

Module report.
Import test_strategies.



End report.


(* ===================================================================== *)
(** * Facts about decimals                                               *)
(* ===================================================================== *)

Module decimal_facts.
Import exact.

Lemma ten_neq_0 : ~ (10 # 1 == 0)%Q.
Proof. discriminate. Qed.

Lemma pow10_pos (e : Z) : (0 < (10 # 1) ^ e)%Q.
Proof. apply Qpower_0_lt. reflexivity. Qed.


Lemma scale_value (d : Decimal) (e : Z) :
  e <= expo d -> (inject_Z (scale d e) * (10 # 1) ^ e == value d)%Q.
Proof.
  intros He. unfold scale, value.
  rewrite inject_Z_mult, Zpower_Qpower by lia.
  change (inject_Z 10) with (10 # 1).
  rewrite <- Qmult_assoc, <- Qpower_plus by apply ten_neq_0.
  replace (expo d - e + e) with (expo d) by lia. reflexivity.
Qed.

Lemma scaled_values (a b : Decimal) :
  let e := Z.min (expo a) (expo b) in
  (inject_Z (scale a e) * (10 # 1) ^ e == value a)%Q /\
  (inject_Z (scale b e) * (10 # 1) ^ e == value b)%Q.
Proof. split; apply scale_value; lia. Qed.

Lemma lt_value (a b : Decimal) : lt a b = true <-> (value a < value b)%Q.
Proof.
  destruct (scaled_values a b) as [Ha Hb]. unfold lt.
  rewrite <- Ha, <- Hb, Z.ltb_lt, Qmult_lt_r by apply pow10_pos.
  rewrite <- Zlt_Qlt. reflexivity.
Qed.

Lemma lt_value_false (a b : Decimal) :
  lt a b = false <-> (value b <= value a)%Q.
Proof.
  rewrite <- not_true_iff_false, lt_value. split.
  - apply Qnot_lt_le.
  - apply Qle_not_lt.
Qed.




#[global] Instance multiple_of_proper :
  Proper (Qeq ==> Qeq ==> iff) multiple_of.
Proof.
  intros x x' Hx s s' Hs. unfold multiple_of.
  setoid_rewrite Hx. setoid_rewrite Hs. reflexivity.
Qed.




End decimal_facts.


(* ===================================================================== *)
(** * Properties of [validate_order_params]                              *)
(* ===================================================================== *)

Module validation_facts.
Import exact validation decimal_facts scenarios.

Lemma found_symbol info sym si :
  fst (get_symbol_info info sym) = Some si ->
  get_symbol_info info sym = (Some si, []).
Proof.
  unfold get_symbol_info. destruct info; cbn; [congruence | discriminate].
Qed.






#[global] Instance not_multiple_of_proper :
  Proper (Qeq ==> Qeq ==> iff) not_multiple_of.
Proof.
  intros x x' Hx s s' Hs. unfold not_multiple_of.
  setoid_rewrite Hx. setoid_rewrite Hs. reflexivity.
Qed.









(** ** The suggested quantity *)




(** Scenario A: quantity 0.0015 against
    [{minQty=0.001, maxQty=1000, stepQty=0.001}] is rejected for its
    precision and 0.001 is suggested, which is the floored quantity. *)
Lemma scenario_A :
  validate_order_params rule_A "BTCUSDT" (mkDecimal 15 (-4)) None
  = (Return false,
     [error_invalid_quantity_precision (mkDecimal 15 (-4)) (mkDecimal 1 (-3));
      info_valid_quantity_might_be (mkDecimal 1 (-3))]) /\
  (value (mkDecimal 1 (-3))
   == floor_to_step (value (mkDecimal 15 (-4))) (value (mkDecimal 1 (-3)))
                    (value (mkDecimal 1 (-3))))%Q.
Proof. split; vm_compute; reflexivity. Qed.

(** C7. With [{minQty=0.5, maxQty=1000, stepSize=0.5}] and quantity 1.7 the
    quantity is rejected for its precision, and the quantity suggested is
    1.7 again: [quantize] only drops the digits below the exponent of the
    step. Flooring [1.7 - 0.5] to a multiple of 0.5 and adding 0.5 gives
    1.5. *)
Theorem suggested_quantity_not_floored :
  validate_order_params rule_half "XYZUSDT" (mkDecimal 17 (-1)) None
  = (Return false,
     [error_invalid_quantity_precision (mkDecimal 17 (-1)) (mkDecimal 5 (-1));
      info_valid_quantity_might_be (mkDecimal 17 (-1))]) /\
  (floor_to_step (value (mkDecimal 17 (-1))) (value (mkDecimal 5 (-1)))
                 (value (mkDecimal 5 (-1))) == 15 # 10)%Q /\
  ~ (value (mkDecimal 17 (-1))
     == floor_to_step (value (mkDecimal 17 (-1))) (value (mkDecimal 5 (-1)))
                      (value (mkDecimal 5 (-1))))%Q.
Proof.
  split; [vm_compute; reflexivity|].
  split; [vm_compute; reflexivity|].
  intros H. vm_compute in H. discriminate.
Qed.

End validation_facts.


(* ===================================================================== *)
(** * Properties of [place_simulated_oco_order]                          *)
(* ===================================================================== *)

Module placement_facts.
Import oco placement scenarios.




(** When the take-profit leg itself is refused, nothing else is tried. *)
Lemma take_profit_refused
    (Exchange : Type)
    (create : CreateOrder -> Exchange ->
              (BinanceAPIException + OrderResponse) * Exchange)
    (cancel : string -> option Z -> Exchange ->
              (BinanceAPIException + unit) * Exchange)
    (symbol side : string) (quantity take_profit_price stop_loss_price : Q)
    (ex ex1 : Exchange) (e : BinanceAPIException) :
  create (mkCreateOrder symbol (python.upper side) "TAKE_PROFIT_MARKET"
                        take_profit_price quantity true) ex
    = (inl e, ex1) ->
  place_simulated_oco_order Exchange create cancel symbol side quantity
                            take_profit_price stop_loss_price ex
  = (None,
     [info_attempting_to_place; info_placing_take_profit;
      call_futures_create_order
        (mkCreateOrder symbol (python.upper side) "TAKE_PROFIT_MARKET"
                       take_profit_price quantity true);
      error_failed_take_profit (code e) (message e);
      print_error_take_profit e],
     ex1).
Proof.
  intros Htp. unfold place_simulated_oco_order. by rewrite Htp.
Qed.

(** Both legs accepted: both answers are returned, nothing is cancelled. *)
Lemma both_legs_placed
    (Exchange : Type)
    (create : CreateOrder -> Exchange ->
              (BinanceAPIException + OrderResponse) * Exchange)
    (cancel : string -> option Z -> Exchange ->
              (BinanceAPIException + unit) * Exchange)
    (symbol side : string) (quantity take_profit_price stop_loss_price : Q)
    (ex ex1 ex2 : Exchange) (tp_order sl_order : OrderResponse) :
  create (mkCreateOrder symbol (python.upper side) "TAKE_PROFIT_MARKET"
                        take_profit_price quantity true) ex
    = (inr tp_order, ex1) ->
  create (mkCreateOrder symbol (python.upper side) "STOP_MARKET"
                        stop_loss_price quantity true) ex1
    = (inr sl_order, ex2) ->
  let result :=
    place_simulated_oco_order Exchange create cancel symbol side quantity
                              take_profit_price stop_loss_price ex in
  fst (fst result) = Some [tp_order; sl_order] /\
  List.filter is_cancel_call (snd (fst result)) = [].
Proof.
  intros Htp Hsl result. subst result.
  unfold place_simulated_oco_order. by rewrite Htp, Hsl.
Qed.

End placement_facts.

(* ===================================================================== *)
(** * Properties of [class Order]                                        *)
(* ===================================================================== *)

Module order_facts.
Import test_strategies observation pairs scenarios.

Ltac unfold_M :=
  unfold mbind, M_bind, mret, M_ret, pass, raise in *.

Lemma get_run (s : Store) (r : ref) :
  get r s = match objects s !! r with
            | Some o => (Ok o, s)
            | None => (Raised NoObject, s)
            end.
Proof. reflexivity. Qed.

Lemma put_run (s : Store) (r : ref) (o : Order) :
  put r o s = (Ok tt, after_put r o s).
Proof. reflexivity. Qed.

Lemma print_run (s : Store) (e : Output) :
  print e s = (Ok tt, after_print e s).
Proof. reflexivity. Qed.

Lemma cancel_run (s : Store) (r : ref) (ts : Timestamp) :
  cancel r ts s =
  match objects s !! r with
  | None => (Raised NoObject, s)
  | Some o =>
      if is_done o then (Ok tt, s)
      else (Ok tt, after_print (print_CANCELLED ts r)
                     (after_put r (set_status o CANCELLED) s))
  end.
Proof.
  unfold cancel. unfold_M. rewrite get_run.
  destruct (objects s !! r) as [o|]; [|done]. by destruct (is_done o).
Qed.

Lemma fill_run (s : Store) (r : ref) (ts : Timestamp) (p : Q) :
  fill r ts p s =
  match objects s !! r with
  | None => (Raised NoObject, s)
  | Some o =>
      if status_eqb (status o) FILLED then (Ok tt, s)
      else
        let s1 := after_print (print_FILLED ts r)
                    (after_put r (set_filled o ts p) s) in
        match oco_peer o with
        | Some peer => cancel peer ts s1
        | None => (Ok tt, s1)
        end
  end.
Proof.
  unfold fill. unfold_M. rewrite get_run.
  destruct (objects s !! r) as [o|]; [|done].
  destruct (status_eqb (status o) FILLED); [done|].
  rewrite put_run, print_run. by destruct (oco_peer o).
Qed.

Lemma crossed_run {S} (o : Order) f g (p : Q) (level : option Q) (s : S) :
  crossed o f g p level s =
  match crossing o f g p level with
  | Some b => (Ok b, s)
  | None => (Raised TypeError, s)
  end.
Proof.
  unfold crossed, crossing, compare. unfold_M.
  destruct (is_buy o), (is_sell o), level as [l|]; try done;
    by destruct (f p l).
Qed.

Lemma update_run (s : Store) (self : ref) (ts : Timestamp) (p : Q) :
  update self ts p s =
  match objects s !! self with
  | None => (Raised NoObject, s)
  | Some o =>
      if is_done o then (Ok tt, s)
      else
        let o1 := stamped o ts in
        let s1 := stamp self ts o s in
        match activation o1 p with
        | None => (Raised TypeError, s1)
        | Some act =>
            let o2 := activated act o1 in
            let s2 := activate self ts act o1 s1 in
            if eligible o2 then
              match crossing o2 le ge p (price o2) with
              | None => (Raised TypeError, s2)
              | Some true => fill self ts p s2
              | Some false => (Ok tt, s2)
              end
            else (Ok tt, s2)
        end
  end.
Proof.
  unfold update. unfold_M. rewrite get_run.
  destruct (objects s !! self) as [o|]; [|done].
  destruct (is_done o); [done|].
  unfold stamp, stamped, activation, activate, activated, eligible.
  destruct (created_at o) as [t|] eqn:Hc; cbn zeta.
  - destruct (_ && _).
    + rewrite crossed_run. destruct (crossing o ge le p _) as [[|]|]; try done.
      * rewrite put_run, print_run.
        destruct (_ || _); [|done].
        rewrite crossed_run. by destruct (crossing _ le ge p _) as [[|]|].
      * destruct (_ || _); [|done].
        rewrite crossed_run. by destruct (crossing _ le ge p _) as [[|]|].
    + destruct (_ || _); [|done].
      rewrite crossed_run. by destruct (crossing _ le ge p _) as [[|]|].
  - rewrite put_run.
    destruct (_ && _).
    + rewrite crossed_run.
      destruct (crossing (set_created_at o ts) ge le p _) as [[|]|]; try done.
      * rewrite put_run, print_run.
        destruct (_ || _); [|done].
        rewrite crossed_run. by destruct (crossing _ le ge p _) as [[|]|].
      * destruct (_ || _); [|done].
        rewrite crossed_run. by destruct (crossing _ le ge p _) as [[|]|].
    + destruct (_ || _); [|done].
      rewrite crossed_run. by destruct (crossing _ le ge p _) as [[|]|].
Qed.

Lemma status_at_insert (objs : list Order) (x r : ref) (o o' : Order) :
  objs !! x = Some o ->
  status_at (<[x := o']> objs) r =
  if decide (x = r) then Some (status o') else status_at objs r.
Proof.
  intros Hx. unfold status_at. case_decide as Hd.
  - subst r. rewrite list_lookup_insert_eq; [done|]. by eapply lookup_lt_Some.
  - by rewrite list_lookup_insert_ne.
Qed.

Lemma lookup_insert_same (objs : list Order) (x : ref) (o o' : Order) :
  objs !! x = Some o -> <[x := o']> objs !! x = Some o'.
Proof. intros Hx. apply list_lookup_insert_eq. by eapply lookup_lt_Some. Qed.

Lemma settled_not_both (a b : ref) (objs : list Order) :
  settled a b objs -> ~ both_filled a b objs.
Proof. intros [H _] [Ha Hb]. specialize (H Ha). congruence. Qed.

Lemma is_done_status (o : Order) :
  is_done o = false -> status o <> FILLED /\ status o <> CANCELLED.
Proof. unfold is_done. destruct (status o); done. Qed.

Section pair.

Variables a b : ref.
Hypothesis a_neq_b : a <> b.

Lemma linked_insert (objs : list Order) (x : ref) (o o' : Order) :
  objs !! x = Some o -> oco_peer o' = oco_peer o ->
  linked a b objs -> linked a b (<[x := o']> objs).
Proof using Type.
  intros Hx Hp (oa & ob & Ha & Hb & Hpa & Hpb).
  assert (Hlk : forall r orig, objs !! r = Some orig ->
            exists o2, <[x := o']> objs !! r = Some o2 /\
                       oco_peer o2 = oco_peer orig).
  { intros r orig Hr. destruct (decide (x = r)) as [Heq|Hne].
    - subst r. rewrite Hx in Hr. injection Hr as <-.
      exists o'. by rewrite (lookup_insert_same _ _ _ _ Hx).
    - exists orig. by rewrite list_lookup_insert_ne. }
  destruct (Hlk _ _ Ha) as (oa' & Ha' & Hpa').
  destruct (Hlk _ _ Hb) as (ob' & Hb' & Hpb').
  exists oa', ob'. repeat split; congruence.
Qed.

(** A write that keeps an order live and its peer in place. *)
Lemma put_live (s : Store) (x : ref) (o o' : Order) :
  objects s !! x = Some o ->
  is_done o = false -> is_done o' = false -> oco_peer o' = oco_peer o ->
  oco_invariant a b s -> oco_invariant a b (after_put x o' s).
Proof using a_neq_b.
  intros Hx Ho Ho' Hp (Hl & Hs & Hh).
  apply is_done_status in Ho as [Ho1 Ho2].
  apply is_done_status in Ho' as [Ho1' Ho2'].
  assert (Hs' : settled a b (<[x := o']> (objects s))).
  { destruct Hs as [Hab Hba]. unfold settled.
    rewrite !(status_at_insert _ _ _ _ _ Hx).
    assert (Hsx : status_at (objects s) x = Some (status o))
      by (unfold status_at; by rewrite Hx).
    split; repeat case_decide; subst; try congruence.
    all: intros Hf; first [specialize (Hba Hf) | specialize (Hab Hf)];
      congruence. }
  split; [|split]; cbn.
  - by eapply linked_insert.
  - done.
  - apply Forall_app. split; [done|].
    constructor; [|constructor]. by apply settled_not_both.
Qed.

(** Cancelling a live order. *)
Lemma put_cancelled (s : Store) (x : ref) (o : Order) :
  objects s !! x = Some o -> is_done o = false ->
  oco_invariant a b s ->
  oco_invariant a b (after_put x (set_status o CANCELLED) s).
Proof using a_neq_b.
  intros Hx Ho (Hl & Hs & Hh).
  apply is_done_status in Ho as [Ho1 Ho2].
  assert (Hs' : settled a b (<[x := set_status o CANCELLED]> (objects s))).
  { destruct Hs as [Hab Hba]. unfold settled.
    rewrite !(status_at_insert _ _ _ _ _ Hx). cbn.
    assert (Hsx : status_at (objects s) x = Some (status o))
      by (unfold status_at; by rewrite Hx).
    split; repeat case_decide; subst; try congruence; done. }
  split; [|split]; cbn.
  - by eapply linked_insert.
  - done.
  - apply Forall_app. split; [done|].
    constructor; [|constructor]. by apply settled_not_both.
Qed.

Lemma print_inv (s : Store) (e : Output) :
  oco_invariant a b s -> oco_invariant a b (after_print e s).
Proof using Type. done. Qed.

Lemma cancel_inv (s : Store) (r : ref) (ts : Timestamp) :
  oco_invariant a b s -> oco_invariant a b (snd (cancel r ts s)).
Proof using a_neq_b.
  intros Hi. rewrite cancel_run.
  destruct (objects s !! r) as [o|] eqn:Hr; [|done].
  destruct (is_done o) eqn:Hd; [done|]. cbn.
  apply print_inv. by apply put_cancelled.
Qed.

End pair.

(** *** The first statements of [update] *)

Lemma stamped_status o ts : status (stamped o ts) = status o.
Proof. unfold stamped. by destruct (created_at o). Qed.

Lemma stamped_peer o ts : oco_peer (stamped o ts) = oco_peer o.
Proof. unfold stamped. by destruct (created_at o). Qed.

Lemma stamped_done o ts : is_done (stamped o ts) = is_done o.
Proof. unfold is_done. by rewrite stamped_status. Qed.

Lemma activated_peer act o : oco_peer (activated act o) = oco_peer o.
Proof. by destruct act. Qed.

Lemma activated_done act o :
  is_done o = false -> is_done (activated act o) = false.
Proof. by destruct act. Qed.

Lemma stamp_lookup self ts o s :
  objects s !! self = Some o ->
  objects (stamp self ts o s) !! self = Some (stamped o ts).
Proof.
  intros Hx. unfold stamp, stamped.
  destruct (created_at o); [done|]. cbn. by eapply lookup_insert_same.
Qed.

Lemma stamp_other self ts o s r :
  r <> self -> objects (stamp self ts o s) !! r = objects s !! r.
Proof.
  intros Hr. unfold stamp. destruct (created_at o); [done|].
  cbn. by rewrite list_lookup_insert_ne.
Qed.

Lemma activate_lookup self ts act o s :
  objects s !! self = Some o ->
  objects (activate self ts act o s) !! self = Some (activated act o).
Proof.
  intros Hx. unfold activate. destruct act; [|done].
  cbn. by eapply lookup_insert_same.
Qed.

Lemma activate_other self ts act o s r :
  r <> self -> objects (activate self ts act o s) !! r = objects s !! r.
Proof.
  intros Hr. unfold activate. destruct act; [|done].
  cbn. by rewrite list_lookup_insert_ne.
Qed.

Lemma inv_sym a b s : oco_invariant a b s -> oco_invariant b a s.
Proof.
  intros ((oa & ob & Ha & Hb & Hpa & Hpb) & [Hab Hba] & Hh).
  split; [|split].
  - by exists ob, oa.
  - by split.
  - eapply Forall_impl; [exact Hh|]. intros objs Hn [H1 H2]. by apply Hn.
Qed.

Section pair.

Variables a b : ref.
Hypothesis a_neq_b : a <> b.

Lemma stamp_inv self ts o s :
  objects s !! self = Some o -> is_done o = false ->
  oco_invariant a b s -> oco_invariant a b (stamp self ts o s).
Proof using a_neq_b.
  intros Hx Hd Hi. unfold stamp. destruct (created_at o) eqn:Hc; [done|].
  eapply put_live; try done.
  - by rewrite stamped_done.
  - by rewrite stamped_peer.
Qed.

Lemma activate_inv self ts act o s :
  objects s !! self = Some o -> is_done o = false ->
  oco_invariant a b s -> oco_invariant a b (activate self ts act o s).
Proof using a_neq_b.
  intros Hx Hd Hi. unfold activate. destruct act; [|done].
  apply print_inv. eapply put_live; try done.
Qed.

(** Filling an order that is neither leg. *)
Lemma put_other s x o' :
  x <> a -> x <> b ->
  oco_invariant a b s -> oco_invariant a b (after_put x o' s).
Proof using Type.
  intros Hxa Hxb ((oa & ob & Ha & Hb & Hpa & Hpb) & Hs & Hh).
  assert (Hst : forall r, r <> x ->
            status_at (<[x := o']> (objects s)) r = status_at (objects s) r).
  { intros r Hr. unfold status_at. by rewrite list_lookup_insert_ne. }
  assert (Hs' : settled a b (<[x := o']> (objects s))).
  { unfold settled. by rewrite !Hst. }
  split; [|split]; cbn.
  - exists oa, ob. by rewrite !list_lookup_insert_ne.
  - done.
  - apply Forall_app. split; [done|].
    constructor; [|constructor]. by apply settled_not_both.
Qed.

End pair.

(** Filling leg [a] of a pair: the peer [b] ends cancelled. *)
Lemma fill_leg a b s o ts p :
  a <> b ->
  oco_invariant a b s ->
  objects s !! a = Some o -> is_done o = false ->
  oco_invariant a b (snd (fill a ts p s)).
Proof.
  intros Hab ((oa & ob & Ha & Hb & Hpa & Hpb) & [Hs1 Hs2] & Hh) Hx Hd.
  assert (oa = o) by congruence. subst oa.
  rewrite fill_run, Hx.
  pose proof (is_done_status _ Hd) as [Hnf Hnc].
  destruct (status o) eqn:Hst; try done; cbn [status_eqb].
  all: rewrite Hpa; cbn zeta.
  all: rewrite cancel_run; cbn [objects after_print after_put].
  all: rewrite list_lookup_insert_ne by done; rewrite Hb.
  all: assert (Hsa : status_at (objects s) a = Some (status o))
         by (unfold status_at; by rewrite Hx).
  all: assert (Hsb : status_at (objects s) b = Some (status ob))
         by (unfold status_at; by rewrite Hb).
  all: assert (Hbf : status ob <> FILLED)
         by (intros Hf; rewrite Hf in Hsb; specialize (Hs2 Hsb); congruence).
  all: assert (Hl1 : linked a b (<[a := set_filled o ts p]> (objects s)))
         by (eapply linked_insert; [done|done|by exists o, ob]).
  all: assert (Hn1 : ~ both_filled a b (<[a := set_filled o ts p]> (objects s)))
         by (intros [_ Hf]; unfold status_at in Hf;
             rewrite list_lookup_insert_ne, Hb in Hf by done;
             cbn in Hf; congruence).
  all: destruct (is_done ob) eqn:Hdb; cbn [snd].
  all: split; [|split]; cbn [objects history after_print after_put].
  all: try done.
  all: try (eapply linked_insert;
            [by rewrite list_lookup_insert_ne|done|done]).
  all: try (unfold settled;
            rewrite ?(status_at_insert _ b _ ob) by
              (by rewrite list_lookup_insert_ne);
            rewrite ?(status_at_insert _ a _ o) by done;
            repeat case_decide; try congruence; cbn;
            unfold is_done in Hdb; destruct (status ob) eqn:Hsob;
            split; intros; congruence).
  all: rewrite ?Forall_app; repeat split; try done.
  all: repeat constructor; try done.
  all: intros [Hf1 Hf2]; revert Hf2.
  all: rewrite (status_at_insert _ b _ ob) by (by rewrite list_lookup_insert_ne).
  all: case_decide; [|done]; cbn; congruence.
Qed.

Section pair.

Variables a b : ref.
Hypothesis a_neq_b : a <> b.

Lemma fill_inv s x o ts p :
  oco_invariant a b s ->
  objects s !! x = Some o -> is_done o = false ->
  oco_invariant a b (snd (fill x ts p s)).
Proof using a_neq_b.
  intros Hi Hx Hd.
  destruct (decide (x = a)) as [->|Hxa]; [by eapply fill_leg|].
  destruct (decide (x = b)) as [->|Hxb].
  { apply inv_sym. eapply fill_leg; try done. by apply inv_sym. }
  rewrite fill_run, Hx.
  destruct (status_eqb (status o) FILLED); [done|]. cbn zeta.
  assert (Hi1 : oco_invariant a b
                  (after_print (print_FILLED ts x)
                     (after_put x (set_filled o ts p) s)))
    by (by apply print_inv, put_other).
  destruct (oco_peer o); [|done]. by apply cancel_inv.
Qed.

Lemma update_inv s x ts p :
  oco_invariant a b s -> oco_invariant a b (snd (update x ts p s)).
Proof using a_neq_b.
  intros Hi. rewrite update_run.
  destruct (objects s !! x) as [o|] eqn:Hx; [|done].
  destruct (is_done o) eqn:Hd; [done|]. cbn zeta.
  pose proof (stamp_lookup x ts o s Hx) as Hx1.
  pose proof (stamp_inv a b a_neq_b x ts o s Hx Hd Hi) as Hi1.
  assert (Hd1 : is_done (stamped o ts) = false) by (by rewrite stamped_done).
  destruct (activation (stamped o ts) p) as [act|]; [|done].
  pose proof (activate_lookup x ts act _ _ Hx1) as Hx2.
  pose proof (activate_inv a b a_neq_b x ts act _ _ Hx1 Hd1 Hi1) as Hi2.
  destruct (eligible _); [|done].
  destruct (crossing _ le ge p _) as [[|]|]; try done.
  eapply fill_inv; try done. by apply activated_done.
Qed.

End pair.

(** When an observation fills a leg, its peer is cancelled by the time
    [update] returns, unless the peer was done already. *)
Lemma update_cascade s a b oa ob ts p :
  a <> b ->
  objects s !! a = Some oa -> objects s !! b = Some ob ->
  oco_peer oa = Some b ->
  status oa <> FILLED ->
  status_at (objects (snd (update a ts p s))) a = Some FILLED ->
  status_at (objects (snd (update a ts p s))) b =
  Some (if is_done ob then status ob else CANCELLED).
Proof.
  intros Hab Ha Hb Hp Hnf. rewrite update_run, Ha.
  destruct (is_done oa) eqn:Hd.
  { cbn. unfold status_at. rewrite Ha. cbn.
    unfold is_done in Hd. by destruct (status oa). }
  cbn zeta.
  pose proof (stamp_lookup a ts oa s Ha) as Ha1.
  assert (Hb1 : objects (stamp a ts oa s) !! b = Some ob)
    by (by rewrite stamp_other).
  assert (Hd1 : is_done (stamped oa ts) = false) by (by rewrite stamped_done).
  destruct (activation (stamped oa ts) p) as [act|].
  2: { cbn. unfold status_at. rewrite Ha1. cbn. rewrite stamped_status.
       unfold is_done in Hd. destruct (status oa); try done. }
  pose proof (activate_lookup a ts act _ _ Ha1) as Ha2.
  assert (Hb2 : objects (activate a ts act (stamped oa ts) (stamp a ts oa s))
                  !! b = Some ob)
    by (by rewrite activate_other).
  pose proof (activated_done act _ Hd1) as Hd2.
  set (o2 := activated act (stamped oa ts)) in *.
  set (s2 := activate a ts act (stamped oa ts) (stamp a ts oa s)) in *.
  assert (Hlive : status_at (objects s2) a = Some FILLED -> False).
  { unfold status_at. rewrite Ha2. cbn. intros [= Hf].
    unfold is_done in Hd2. by rewrite Hf in Hd2. }
  destruct (eligible o2); [|by intros H; destruct (Hlive H)].
  destruct (crossing o2 le ge p (price o2)) as [[|]|];
    try (by intros H; destruct (Hlive H)).
  intros _. rewrite fill_run, Ha2.
  assert (Hsf : status_eqb (status o2) FILLED = false).
  { unfold is_done in Hd2. by destruct (status o2). }
  rewrite Hsf. cbn zeta.
  assert (Hp2 : oco_peer o2 = Some b).
  { unfold o2. by rewrite activated_peer, stamped_peer. }
  rewrite Hp2, cancel_run. cbn [objects after_print after_put].
  rewrite list_lookup_insert_ne by done. rewrite Hb2.
  destruct (is_done ob); cbn [snd objects after_print after_put].
  - unfold status_at. rewrite list_lookup_insert_ne by done. by rewrite Hb2.
  - unfold status_at. erewrite lookup_insert_same; [done|].
    by rewrite list_lookup_insert_ne.
Qed.


Lemma crossing_some o f g p l :
  crossing o f g p (Some l) = Some ((is_buy o && f p l) || (is_sell o && g p l)).
Proof.
  unfold crossing. destruct (is_buy o), (is_sell o), (f p l); done.
Qed.

Lemma le_iff p l : le p l = true <-> (p <= l)%Q.
Proof. apply Qle_bool_iff. Qed.

Lemma ge_iff p l : ge p l = true <-> (l <= p)%Q.
Proof. apply Qle_bool_iff. Qed.

Lemma crossed_iff o (f g : Q -> Q -> bool) p l (F G : Prop) :
  (f p l = true <-> F) -> (g p l = true <-> G) ->
  (is_buy o && f p l) || (is_sell o && g p l) = true <->
  (is_buy o = true /\ F) \/ (is_sell o = true /\ G).
Proof.
  intros HF HG. rewrite orb_true_iff, !andb_true_iff, HF, HG. done.
Qed.

Lemma stamped_fields o ts :
  order_type (stamped o ts) = order_type o /\ side (stamped o ts) = side o /\
  quantity (stamped o ts) = quantity o /\ price (stamped o ts) = price o /\
  trigger_price (stamped o ts) = trigger_price o.
Proof. unfold stamped. by destruct (created_at o). Qed.

Lemma stamped_buy o ts : is_buy (stamped o ts) = is_buy o.
Proof. unfold is_buy. by destruct (stamped_fields o ts) as (_ & -> & _). Qed.

Lemma stamped_sell o ts : is_sell (stamped o ts) = is_sell o.
Proof. unfold is_sell. by destruct (stamped_fields o ts) as (_ & -> & _). Qed.

(** The object behind [x] once [fill] has run on an order not yet
    filled. *)
Lemma fill_self s x o ts p :
  objects s !! x = Some o -> status o <> FILLED ->
  objects (snd (fill x ts p s)) !! x = Some (set_filled o ts p).
Proof.
  intros Hx Hnf. rewrite fill_run, Hx.
  assert (Hsf : status_eqb (status o) FILLED = false)
    by (by destruct (status o)).
  rewrite Hsf. cbn zeta.
  assert (Hx1 : <[x := set_filled o ts p]> (objects s) !! x
                = Some (set_filled o ts p)) by (by eapply lookup_insert_same).
  destruct (oco_peer o) as [peer|]; [|done].
  rewrite cancel_run. cbn [objects after_print after_put].
  destruct (decide (peer = x)) as [->|Hne].
  - by rewrite Hx1.
  - destruct (_ !! peer) as [po|]; [|done].
    destruct (is_done po); [done|]. cbn.
    by rewrite list_lookup_insert_ne.
Qed.

(** What [fill] prints: the fill first. *)
Lemma fill_stdout s x o ts p :
  objects s !! x = Some o -> status o <> FILLED ->
  exists evs, stdout (snd (fill x ts p s))
              = stdout s ++ print_FILLED ts x :: evs /\
              forall t r, ~ In (print_ACTIVATED t r) evs.
Proof.
  intros Hx Hnf. rewrite fill_run, Hx.
  assert (Hsf : status_eqb (status o) FILLED = false)
    by (by destruct (status o)).
  rewrite Hsf. cbn zeta.
  destruct (oco_peer o) as [peer|]; [|(exists []; split; [done | intros ? ? []])].
  rewrite cancel_run. cbn [objects after_print after_put].
  destruct (_ !! peer) as [po|]; [|(exists []; split; [done | intros ? ? []])].
  destruct (is_done po); [(exists []; split; [done | intros ? ? []])|].
  exists [print_CANCELLED ts peer]. cbn. rewrite <- app_assoc. split; [done|].
  intros t r [|[]]. discriminate.
Qed.

Lemma stamp_stdout self ts o s : stdout (stamp self ts o s) = stdout s.
Proof. unfold stamp. by destruct (created_at o). Qed.

(** An observation of a fill-eligible order. *)
Lemma update_eligible s self o ts p lp :
  objects s !! self = Some o ->
  price o = Some lp ->
  status o = ACTIVE \/ (order_type o = "LIMIT" /\ status o = PENDING) ->
  update self ts p s =
  if (is_buy o && le p lp) || (is_sell o && ge p lp)
  then fill self ts p (stamp self ts o s)
  else (Ok tt, stamp self ts o s).
Proof.
  intros Hx Hp He. rewrite update_run, Hx.
  destruct (stamped_fields o ts) as (Hty & Hsd & _ & Hpr & _).
  assert (Hd : is_done o = false)
    by (unfold is_done; destruct He as [->|[_ ->]]; done).
  rewrite Hd. cbn zeta.
  assert (Ha : activation (stamped o ts) p = Some false).
  { unfold activation. rewrite Hty, stamped_status.
    destruct He as [->|[-> ->]]; [|done]. by rewrite andb_false_r. }
  rewrite Ha. unfold activated, activate.
  assert (Hel : eligible (stamped o ts) = true).
  { unfold eligible. rewrite Hty, stamped_status.
    destruct He as [->|[-> ->]]; done. }
  rewrite Hel, Hpr, Hp, crossing_some, stamped_buy, stamped_sell.
  by destruct (_ || _).
Qed.

(** An observation of a pending stop-limit order. *)
Lemma update_pending_stop s self o ts p lp tp :
  objects s !! self = Some o ->
  order_type o = "STOP_LIMIT" -> status o = PENDING ->
  price o = Some lp -> trigger_price o = Some tp ->
  update self ts p s =
  let o1 := stamped o ts in
  let act := (is_buy o && ge p tp) || (is_sell o && le p tp) in
  let s2 := activate self ts act o1 (stamp self ts o s) in
  if act && ((is_buy o && le p lp) || (is_sell o && ge p lp))
  then fill self ts p s2
  else (Ok tt, s2).
Proof.
  intros Hx Hty Hst Hp Ht. rewrite update_run, Hx.
  destruct (stamped_fields o ts) as (Hty1 & Hsd & _ & Hpr & Htr).
  assert (Hd : is_done o = false) by (unfold is_done; by rewrite Hst).
  rewrite Hd. cbn zeta.
  unfold activation. rewrite Hty1, stamped_status, Hty, Hst, Htr, Ht.
  cbn [String.eqb Ascii.eqb Bool.eqb andb status_eqb].
  rewrite crossing_some, stamped_buy, stamped_sell.
  destruct (_ || _); cbn [andb].
  - assert (Hel : eligible (activated true (stamped o ts)) = true) by done.
    rewrite Hel. cbn [activated price set_status].
    rewrite Hpr, Hp, crossing_some.
    change (is_buy (set_status (stamped o ts) ACTIVE)) with (is_buy (stamped o ts)).
    change (is_sell (set_status (stamped o ts) ACTIVE)) with (is_sell (stamped o ts)).
    rewrite stamped_buy, stamped_sell. by destruct (_ || _).
  - assert (Hel : eligible (activated false (stamped o ts)) = false).
    { unfold eligible, activated. by rewrite Hty1, stamped_status, Hty, Hst. }
    by rewrite Hel.
Qed.

(** [fill] on a live order whose peer, if any, names an object. *)
Lemma fill_ok s x o ts p :
  objects s !! x = Some o ->
  (forall peer, oco_peer o = Some peer -> is_Some (objects s !! peer)) ->
  fst (fill x ts p s) = Ok tt.
Proof.
  intros Hx Hpeer. rewrite fill_run, Hx.
  destruct (status_eqb _ _); [done|]. cbn zeta.
  destruct (oco_peer o) as [peer|]; [|done].
  rewrite cancel_run. cbn [objects after_print after_put].
  destruct (Hpeer peer eq_refl) as [po Hpo].
  destruct (decide (peer = x)) as [->|Hne].
  - erewrite lookup_insert_same by done. done.
  - rewrite list_lookup_insert_ne by done. rewrite Hpo.
    by destruct (is_done po).
Qed.


Lemma fill_history s x ts p :
  exists hs, history (snd (fill x ts p s)) = history s ++ hs.
Proof.
  rewrite fill_run. destruct (objects s !! x) as [o|]; [|by exists []; rewrite app_nil_r].
  destruct (status_eqb _ _); [by exists []; rewrite app_nil_r|]. cbn zeta.
  destruct (oco_peer o) as [peer|]; [|by eexists].
  rewrite cancel_run. cbn [objects after_print after_put].
  destruct (_ !! peer) as [po|]; [|by eexists].
  destruct (is_done po); [by eexists|].
  cbn. rewrite <- app_assoc. by eexists.
Qed.

(** C5. An order that is ACTIVE, or a LIMIT order still PENDING, observed
    at price [p] becomes FILLED exactly when it is a BUY and
    [p <= price], or a SELL and [p >= price]; [filled_at] and
    [filled_price] are then the timestamp and the price observed. Otherwise
    its status is unchanged. No activation is printed on the way: a LIMIT
    order goes from PENDING to FILLED without being ACTIVE. *)
Theorem limit_fill_rule s self o ts p lp :
  objects s !! self = Some o ->
  price o = Some lp ->
  status o = ACTIVE \/ (order_type o = "LIMIT" /\ status o = PENDING) ->
  let s' := snd (update self ts p s) in
  exists o', objects s' !! self = Some o' /\
    (status o' = FILLED <->
     (is_buy o = true /\ (p <= lp)%Q) \/ (is_sell o = true /\ (lp <= p)%Q)) /\
    (status o' = FILLED -> filled_at o' = Some ts /\ filled_price o' = Some p) /\
    (status o' <> FILLED -> status o' = status o) /\
    (forall t r, In (print_ACTIVATED t r) (stdout s') ->
                 In (print_ACTIVATED t r) (stdout s)).
Proof.
  intros Hx Hp He s'. subst s'.
  rewrite (update_eligible _ _ _ _ _ _ Hx Hp He).
  pose proof (crossed_iff o le ge p lp _ _ (le_iff p lp) (ge_iff p lp)) as Hc.
  pose proof (stamp_lookup self ts o s Hx) as Hx1.
  assert (Hnf : status (stamped o ts) <> FILLED).
  { rewrite stamped_status. destruct He as [->|[_ ->]]; done. }
  destruct (_ || _).
  - exists (set_filled (stamped o ts) ts p).
    split; [by apply fill_self|]. split; [|split; [|split]]; try done.
    + split; [intros _; by apply Hc | done].
    + intros t r Hin.
      destruct (fill_stdout _ _ _ ts p Hx1 Hnf) as (evs & Hev & Hno).
      rewrite Hev, stamp_stdout in Hin.
      apply in_app_or in Hin as [|[|Hin]]; [done|done|by destruct (Hno t r)].
  - exists (stamped o ts). cbn [snd].
    split; [done|]. rewrite stamped_status, stamp_stdout.
    assert (Hnf' : status o <> FILLED) by (by rewrite <- (stamped_status o ts)).
    split; [|split; [|split]].
    + split; [done|]. intros H. apply Hc in H. discriminate.
    + done.
    + done.
    + done.
Qed.

(** An observation of a pending stop-limit order: it is activated exactly
    when its trigger is crossed. *)
Lemma pending_stop_observation s self o ts p lp tp :
  objects s !! self = Some o ->
  order_type o = "STOP_LIMIT" -> status o = PENDING ->
  price o = Some lp -> trigger_price o = Some tp ->
  let s' := snd (update self ts p s) in
  let triggered :=
    (is_buy o = true /\ (tp <= p)%Q) \/ (is_sell o = true /\ (p <= tp)%Q) in
  exists o' evs,
    objects s' !! self = Some o' /\ stdout s' = stdout s ++ evs /\
    (In (print_ACTIVATED ts self) evs <-> triggered) /\
    (status o' <> PENDING <-> triggered) /\
    (triggered -> status o' = ACTIVE \/ status o' = FILLED).
Proof.
  intros Hx Hty Hst Hp Ht s' triggered. subst s'.
  rewrite (update_pending_stop _ _ _ _ _ _ _ Hx Hty Hst Hp Ht). cbn zeta.
  pose proof (crossed_iff o ge le p tp _ _ (ge_iff p tp) (le_iff p tp)) as Hc.
  fold triggered in Hc.
  pose proof (stamp_lookup self ts o s Hx) as Hx1.
  destruct (is_buy o && ge p tp || is_sell o && le p tp) eqn:Hact.
  - assert (Htr : triggered) by (by apply Hc).
    pose proof (activate_lookup self ts true _ _ Hx1) as Hx2.
    cbn [andb]. destruct (is_buy o && le p lp || is_sell o && ge p lp).
    + destruct (fill_stdout _ _ _ ts p Hx2 ltac:(done)) as (evs & Hev & Hno).
      exists (set_filled (activated true (stamped o ts)) ts p),
             (print_ACTIVATED ts self :: print_FILLED ts self :: evs).
      split; [by apply fill_self|].
      split.
      { rewrite Hev. cbn. rewrite stamp_stdout, <- app_assoc. done. }
      split; [split; [done | intros _; by left]|].
      split; [done | intros _; by right].
    + exists (activated true (stamped o ts)), [print_ACTIVATED ts self].
      cbn [snd]. split; [done|].
      split; [by cbn; rewrite stamp_stdout|].
      split; [split; [done | intros _; by left]|].
      split; [done | intros _; by left].
  - assert (Htr : ~ triggered) by (intros H; apply Hc in H; discriminate).
    exists (stamped o ts), []. cbn [andb snd activate].
    split; [done|]. split; [by rewrite stamp_stdout, app_nil_r|].
    rewrite stamped_status, Hst.
    split; [split; [intros [] | done]|]. split; [split; done | done].
Qed.

(** C10. A PENDING SELL stop-limit order observed at a price [p] with
    [price <= p <= trigger_price] - or a BUY one with
    [trigger_price <= p <= price] - is activated and filled by that one
    call of [update]: ACTIVATED then FILLED are printed with the same
    timestamp, the store was written with the order ACTIVE, and the order
    ends FILLED at price [p]. *)
Theorem stop_limit_same_call s self o ts p lp tp :
  objects s !! self = Some o ->
  order_type o = "STOP_LIMIT" -> status o = PENDING ->
  price o = Some lp -> trigger_price o = Some tp ->
  (is_sell o = true /\ (lp <= p)%Q /\ (p <= tp)%Q) \/
  (is_buy o = true /\ (tp <= p)%Q /\ (p <= lp)%Q) ->
  let s' := snd (update self ts p s) in
  exists o' evs,
    objects s' !! self = Some o' /\
    status o' = FILLED /\ filled_at o' = Some ts /\ filled_price o' = Some p /\
    stdout s' = stdout s ++ print_ACTIVATED ts self :: print_FILLED ts self :: evs /\
    Exists (fun objs => status_at objs self = Some ACTIVE) (history s').
Proof.
  intros Hx Hty Hst Hp Ht Hc s'. subst s'.
  rewrite (update_pending_stop _ _ _ _ _ _ _ Hx Hty Hst Hp Ht). cbn zeta.
  pose proof (crossed_iff o ge le p tp _ _ (ge_iff p tp) (le_iff p tp)) as Hc1.
  pose proof (crossed_iff o le ge p lp _ _ (le_iff p lp) (ge_iff p lp)) as Hc2.
  assert (H1 : is_buy o && ge p tp || is_sell o && le p tp = true)
    by (apply Hc1; destruct Hc as [(?&?&?)|(?&?&?)]; [right|left]; done).
  assert (H2 : is_buy o && le p lp || is_sell o && ge p lp = true)
    by (apply Hc2; destruct Hc as [(?&?&?)|(?&?&?)]; [right|left]; done).
  rewrite H1, H2. cbn [andb].
  pose proof (stamp_lookup self ts o s Hx) as Hx1.
  pose proof (activate_lookup self ts true _ _ Hx1) as Hx2.
  destruct (fill_stdout _ _ _ ts p Hx2 ltac:(done)) as (evs & Hev & Hno).
  destruct (fill_history (activate self ts true (stamped o ts) (stamp self ts o s))
              self ts p) as (hs & Hhs).
  exists (set_filled (activated true (stamped o ts)) ts p), evs.
  split; [by apply fill_self|]. do 3 (split; [done|]).
  split.
  - rewrite Hev. cbn. rewrite stamp_stdout, <- app_assoc. done.
  - rewrite Hhs. apply Exists_app. left. cbn. apply Exists_app. right.
    constructor. unfold status_at.
    by erewrite lookup_insert_same.
Qed.

Lemma limit_fill_rule_witness :
  exists o',
    objects (snd (update 0%nat 7 106 (mkStore [limit_sell_105] [] [])))
      !! 0%nat = Some o' /\
    status o' = FILLED /\ filled_at o' = Some 7 /\ filled_price o' = Some 106%Q.
Proof.
  destruct (limit_fill_rule (mkStore [limit_sell_105] [] []) 0%nat
              limit_sell_105 7 106 105 eq_refl eq_refl
              (or_intror (conj eq_refl eq_refl)))
    as (o' & Hx & Hiff & Hrec & _).
  assert (Hf : status o' = FILLED).
  { apply Hiff. right. split; [reflexivity | discriminate]. }
  exists o'. split; [exact Hx|]. split; [exact Hf|]. exact (Hrec Hf).
Defined.

Lemma stop_limit_same_call_witness :
  exists o' evs,
    objects (snd (update 0%nat 7 98 (mkStore [stop_sell_98] [] [])))
      !! 0%nat = Some o' /\
    status o' = FILLED /\ filled_at o' = Some 7 /\
    filled_price o' = Some 98%Q /\
    stdout (snd (update 0%nat 7 98 (mkStore [stop_sell_98] [] [])))
      = [] ++ print_ACTIVATED 7 0%nat :: print_FILLED 7 0%nat :: evs /\
    Exists (fun objs => status_at objs 0%nat = Some ACTIVE)
           (history (snd (update 0%nat 7 98 (mkStore [stop_sell_98] [] [])))).
Proof.
  apply (stop_limit_same_call (mkStore [stop_sell_98] [] []) 0%nat
           stop_sell_98 7 98 98 98); try reflexivity.
  left. split; [reflexivity|]. split; discriminate.
Defined.

(** ** Terminal states *)

Lemma update_done s x o ts p :
  objects s !! x = Some o -> is_done o = true ->
  update x ts p s = (Ok tt, s).
Proof. intros Hx Hd. by rewrite update_run, Hx, Hd. Qed.

Lemma cancel_done s x o ts :
  objects s !! x = Some o -> is_done o = true ->
  cancel x ts s = (Ok tt, s).
Proof. intros Hx Hd. by rewrite cancel_run, Hx, Hd. Qed.

Lemma fill_filled s x o ts p :
  objects s !! x = Some o -> status o = FILLED ->
  fill x ts p s = (Ok tt, s).
Proof. intros Hx Hf. by rewrite fill_run, Hx, Hf. Qed.

(** [cancel] is idempotent. *)
Lemma cancel_twice s x ts ts' :
  cancel x ts' (snd (cancel x ts s)) = (Ok tt, snd (cancel x ts s)) \/
  objects s !! x = None.
Proof.
  destruct (objects s !! x) as [o|] eqn:Hx; [left | by right].
  rewrite (cancel_run s), Hx.
  destruct (is_done o) eqn:Hd; cbn [snd].
  - by eapply cancel_done.
  - eapply cancel_done; [by eapply lookup_insert_same | done].
Qed.

(** A done order is left alone by [cancel] and [update], on whichever
    order they are called. *)
Lemma cancel_keeps_done s x o y ts :
  objects s !! x = Some o -> is_done o = true ->
  objects (snd (cancel y ts s)) !! x = Some o.
Proof.
  intros Hx Hd. rewrite cancel_run.
  destruct (objects s !! y) as [oy|] eqn:Hy; [|done].
  destruct (is_done oy) eqn:Hdy; [done|]. cbn.
  rewrite list_lookup_insert_ne; [done|]. intros ->. congruence.
Qed.

Lemma update_keeps_done s x o y ts p :
  objects s !! x = Some o -> is_done o = true ->
  objects (snd (update y ts p s)) !! x = Some o.
Proof.
  intros Hx Hd. rewrite update_run.
  destruct (objects s !! y) as [oy|] eqn:Hy; [|done].
  destruct (is_done oy) eqn:Hdy; [done|]. cbn zeta.
  assert (Hne : x <> y) by (intros ->; congruence).
  assert (Hx1 : objects (stamp y ts oy s) !! x = Some o)
    by (by rewrite stamp_other).
  destruct (activation (stamped oy ts) p) as [act|]; [|done].
  assert (Hx2 : objects (activate y ts act (stamped oy ts) (stamp y ts oy s))
                  !! x = Some o) by (by rewrite activate_other).
  pose proof (activate_lookup y ts act _ _ (stamp_lookup y ts oy s Hy)) as Hy2.
  destruct (eligible _); [|done].
  destruct (crossing _ le ge p _) as [[|]|]; try done.
  rewrite fill_run, Hy2.
  destruct (status_eqb _ FILLED); [done|]. cbn zeta.
  assert (Hx3 : <[y := set_filled (activated act (stamped oy ts)) ts p]>
                  (objects (activate y ts act (stamped oy ts) (stamp y ts oy s)))
                  !! x = Some o) by (by rewrite list_lookup_insert_ne).
  destruct (oco_peer _) as [peer|]; [|done].
  by apply cancel_keeps_done.
Qed.

(** C3. [update] and [cancel] leave a FILLED or CANCELLED order as it is
    (lemmas above), and so does [fill] a FILLED order. But the status of a
    CANCELLED order does change under [fill]: the method only looks for
    FILLED, not for [is_done], and sets the order to FILLED. *)
Theorem fill_revives_cancelled s r o ts p :
  objects s !! r = Some o -> status o = CANCELLED ->
  status_at (objects (snd (fill r ts p s))) r = Some FILLED.
Proof.
  intros Hx Hc. unfold status_at.
  rewrite (fill_self s r o ts p Hx); [done|]. by rewrite Hc.
Qed.

(** [Order('LIMIT', 'SELL', 1.0, price=105)] cancelled at time 1, then
    filled at time 2. *)
Lemma fill_revives_cancelled_witness :
  status_at (objects (snd (cancel 0%nat 1 (mkStore [limit_sell_105] [] []))))
            0%nat = Some CANCELLED /\
  status_at
    (objects (snd (fill 0%nat 2 105
                        (snd (cancel 0%nat 1 (mkStore [limit_sell_105] [] []))))))
    0%nat = Some FILLED.
Proof.
  split; [reflexivity|].
  apply (fill_revives_cancelled _ 0%nat (set_status limit_sell_105 CANCELLED));
    reflexivity.
Defined.

(** On an OCO pair, calling [fill] on one leg and then on the other leaves
    both legs FILLED. *)
Lemma direct_fill_fills_both_legs :
  both_filled 0%nat 1%nat
    (objects (snd (fill 1%nat 2 98
                        (snd (fill 0%nat 1 105 (store world_with_pair)))))).
Proof. split; reflexivity. Qed.

End order_facts.


(* ===================================================================== *)
(** * Properties of [class Backtester]                                   *)
(* ===================================================================== *)

Module replay_facts.
Import test_strategies observation pairs scenarios order_facts.

(** *** Methods of [Backtester] *)

Lemma call_store {A} (m : M Store A) (w : World) :
  store (snd (call m w)) = snd (m (store w)).
Proof. unfold call. by destruct (m (store w)). Qed.

Lemma call_backtester {A} (m : M Store A) (w : World) :
  backtester (snd (call m w)) = backtester w.
Proof. unfold call. by destruct (m (store w)). Qed.

Lemma call_fst {A} (m : M Store A) (w : World) :
  fst (call m w) = fst (m (store w)).
Proof. unfold call. by destruct (m (store w)). Qed.

Lemma execute_fill_store order w :
  store (snd (_execute_fill order w)) = store w.
Proof.
  unfold _execute_fill, times_quantity, assign. unfold_M.
  unfold call. rewrite get_run.
  destruct (objects (store w) !! order) as [o|]; [|done].
  destruct (is_buy o), (is_sell o), (filled_price o); done.
Qed.

Lemma observe_store order ts p w :
  store (snd (observe order ts p w)) = snd (update order ts p (store w)).
Proof.
  unfold observe. unfold_M.
  pose proof (call_store (update order ts p) w) as Hs.
  destruct (call (update order ts p) w) as [[[]|e] w1]; cbn in Hs; [|done].
  pose proof (call_store (get order) w1) as Hs2.
  rewrite get_run in Hs2.
  assert (Hw : store (snd (call (get order) w1)) = store w1)
    by (rewrite Hs2; by destruct (objects (store w1) !! order)).
  destruct (call (get order) w1) as [[o|e] w2]; cbn in Hw; [|cbn; congruence].
  destruct (status_eqb _ _); cbn.
  - rewrite execute_fill_store. congruence.
  - congruence.
Qed.

Section replay.

Variables a b : ref.
Hypothesis a_neq_b : a <> b.

Lemma for_orders_inv orders ts p w :
  oco_invariant a b (store w) ->
  oco_invariant a b (store (snd (for_orders orders ts p w))).
Proof using a_neq_b.
  revert w. induction orders as [|order rest IH]; intros w Hi; [done|].
  cbn [for_orders]. unfold_M.
  pose proof (observe_store order ts p w) as Hs.
  destruct (observe order ts p w) as [[[]|e] w1]; cbn in Hs.
  - apply IH. rewrite Hs. by apply update_inv.
  - cbn. rewrite Hs. by apply update_inv.
Qed.

Lemma tick_inv ts p w :
  oco_invariant a b (store w) ->
  oco_invariant a b (store (snd (tick ts p w))).
Proof using a_neq_b.
  intros Hi. unfold tick, self_, drop_done, assign. unfold_M.
  pose proof (for_orders_inv (_orders (backtester w)) ts p w Hi) as H.
  by destruct (for_orders _ ts p w) as [[[]|e] w1].
Qed.

Lemma replay_inv data w :
  oco_invariant a b (store w) ->
  oco_invariant a b (store (snd (replay data w))).
Proof using a_neq_b.
  revert w. induction data as [|[ts p] rest IH]; intros w Hi; [done|].
  cbn [replay]. unfold_M.
  pose proof (tick_inv ts p w Hi) as H.
  destruct (tick ts p w) as [[[]|e] w1]; [by apply IH|done].
Qed.

End replay.

Lemma observe_run order ts p w :
  observe order ts p w =
  match update order ts p (store w) with
  | (Raised e, s1) => (Raised e, mkWorld (backtester w) s1)
  | (Ok _, s1) =>
      match objects s1 !! order with
      | None => (Raised NoObject, mkWorld (backtester w) s1)
      | Some o =>
          if status_eqb (status o) FILLED
          then _execute_fill order (mkWorld (backtester w) s1)
          else (Ok tt, mkWorld (backtester w) s1)
      end
  end.
Proof.
  unfold observe, call. unfold_M.
  destruct (update order ts p (store w)) as [[[]|e] s1]; [|done].
  cbn [store backtester]. rewrite get_run.
  destruct (objects s1 !! order) as [o|]; [|done].
  by destruct (status_eqb _ _).
Qed.

Lemma execute_fill_run order w o :
  objects (store w) !! order = Some o ->
  _execute_fill order w =
  let b := backtester w in
  let entry := mkTrade (filled_at o) (side o) (filled_price o) in
  if is_buy o then
    match filled_price o with
    | Some fp =>
        (Ok tt,
         mkWorld (mkBacktester (initial_cash b) (cash b - fp * quantity o)%Q
                    (position_size b + quantity o)%Q
                    (trade_log b ++ [entry]) (_orders b))
                 (store w))
    | None => (Raised TypeError, w)
    end
  else if is_sell o then
    match filled_price o with
    | Some fp =>
        (Ok tt,
         mkWorld (mkBacktester (initial_cash b) (cash b + fp * quantity o)%Q
                    (position_size b - quantity o)%Q
                    (trade_log b ++ [entry]) (_orders b))
                 (store w))
    | None => (Raised TypeError, w)
    end
  else
    (Ok tt,
     mkWorld (mkBacktester (initial_cash b) (cash b) (position_size b)
                (trade_log b ++ [entry]) (_orders b))
             (store w)).
Proof.
  intros Hx. unfold _execute_fill, times_quantity, assign, call. unfold_M.
  rewrite get_run, Hx. destruct w as [b s]. cbn.
  destruct (is_buy o), (is_sell o), (filled_price o); done.
Qed.



Lemma for_orders_cons order rest ts p w :
  for_orders (order :: rest) ts p w =
  match observe order ts p w with
  | (Ok _, w1) => for_orders rest ts p w1
  | (Raised e, w1) => (Raised e, w1)
  end.
Proof. reflexivity. Qed.



Lemma tick_run ts p w :
  tick ts p w =
  match for_orders (_orders (backtester w)) ts p w with
  | (Ok _, w1) => drop_done w1
  | (Raised e, w1) => (Raised e, w1)
  end.
Proof. reflexivity. Qed.






(** C1. Take two distinct orders that name each other as peers, no leg
    filled unless the other is cancelled. However many ticks are replayed,
    no store written on the way has both legs FILLED, nor has the final
    one. And when [update] turns leg [a] FILLED, leg [b] is CANCELLED when
    that call returns, unless it was done already, in which case it is left
    as it was. *)
Theorem oco_never_both_filled (a b : ref) (w : World)
    (data : list (Timestamp * Q)) :
  a <> b ->
  oco_invariant a b (store w) ->
  (let w' := snd (replay data w) in
   Forall (fun objs => ~ both_filled a b objs) (history (store w')) /\
   ~ both_filled a b (objects (store w'))) /\
  (forall s oa ob ts p,
     objects s !! a = Some oa -> objects s !! b = Some ob ->
     oco_peer oa = Some b ->
     status oa <> FILLED ->
     let s' := snd (update a ts p s) in
     status_at (objects s') a = Some FILLED ->
     status_at (objects s') b =
     Some (if is_done ob then status ob else CANCELLED)).
Proof.
  intros Hab Hi. split.
  - destruct (replay_inv a b Hab data w Hi) as (_ & Hs & Hh).
    split; [done | by apply settled_not_both].
  - intros s oa ob ts p Ha Hb Hp Hnf s'. by eapply update_cascade.
Qed.

Lemma oco_never_both_filled_witness :
  Forall (fun objs => ~ both_filled 0%nat 1%nat objs)
         (history (store (snd (replay ticks_B world_with_pair)))) /\
  ~ both_filled 0%nat 1%nat
      (objects (store (snd (replay ticks_B world_with_pair)))).
Proof.
  refine (proj1 (oco_never_both_filled 0%nat 1%nat world_with_pair ticks_B
                   _ _)).
  - discriminate.
  - split; [|split].
    + do 2 eexists. repeat split; reflexivity.
    + split; intros H; vm_compute in H; discriminate.
    + repeat constructor; intros [H _]; vm_compute in H; discriminate.
Defined.

(** [place_oco_order] on a store without objects: the legs are objects 0
    and 1, linked and pending. *)
Lemma place_oco_order_fresh q tp sl b out :
  exists w1,
    place_oco_order q tp sl (mkWorld b (mkStore [] out [])) = (Ok tt, w1) /\
    oco_invariant 0%nat 1%nat (store w1).
Proof.
  eexists. split; [reflexivity|]. split; [|split].
  - do 2 eexists. repeat split; reflexivity.
  - split; intros H; discriminate.
  - repeat constructor; intros [H _]; discriminate.
Qed.

(** The pair that [run] places is never filled on both legs, whatever the
    data. *)
Lemma run_never_both_filled (cash0 : Q) (data : list (Timestamp * Q)) :
  let w' := snd (run data (mkWorld (Backtester__init__ cash0) empty_store)) in
  Forall (fun objs => ~ both_filled 0%nat 1%nat objs) (history (store w')) /\
  ~ both_filled 0%nat 1%nat (objects (store w')).
Proof.
  destruct data as [|[t0 p0] rest].
  { cbn. split; [constructor|]. intros [H _]. discriminate. }
  unfold run. unfold_M. cbn -[replay place_oco_order].
  match goal with
  | |- context [place_oco_order ?q ?tp ?sl (mkWorld ?b (mkStore [] ?out []))] =>
      destruct (place_oco_order_fresh q tp sl b out) as (w1 & -> & Hi)
  end.
  pose proof (replay_inv 0%nat 1%nat ltac:(done) ((t0, p0) :: rest) w1 Hi)
    as (_ & Hs & Hh').
  destruct (replay _ w1) as [[[]|e] w2]; cbn in *.
  - split; [done | by apply settled_not_both].
  - split; [done | by apply settled_not_both].
Qed.
(** C6. A PENDING stop-limit order observed at price [p] is activated -
    ACTIVATED is printed and the order leaves PENDING, for ACTIVE or, when
    the same call also fills it, FILLED - exactly when it is a BUY and
    [p >= trigger_price], or a SELL and [p <= trigger_price]. And on the
    ticks 100, 102, 97, 99 the stop-limit leg that [run] places, a SELL
    with trigger 98, is activated at the tick of price 97 (and filled at
    the next one, which cancels the take-profit leg). *)
Theorem stop_limit_activation :
  (forall s self o ts p lp tp,
     objects s !! self = Some o ->
     order_type o = "STOP_LIMIT" -> status o = PENDING ->
     price o = Some lp -> trigger_price o = Some tp ->
     let s' := snd (update self ts p s) in
     let triggered :=
       (is_buy o = true /\ (tp <= p)%Q) \/ (is_sell o = true /\ (p <= tp)%Q) in
     exists o' evs,
       objects s' !! self = Some o' /\ stdout s' = stdout s ++ evs /\
       (In (print_ACTIVATED ts self) evs <-> triggered) /\
       (status o' <> PENDING <-> triggered) /\
       (triggered -> status o' = ACTIVE \/ status o' = FILLED)) /\
  (forall (cash0 : Q) (t0 t1 t2 t3 : Timestamp),
     stdout (store (snd (run [(t0, 100%Q); (t1, 102%Q); (t2, 97%Q); (t3, 99%Q)]
                             (mkWorld (Backtester__init__ cash0) empty_store))))
     = [print_Starting_Backtest;
        print_Simulating_initial_BUY 100;
        print_Placed_OCO (100 * (105 # 100)) (100 * (98 # 100));
        print_ACTIVATED t2 1%nat;
        print_FILLED t3 1%nat;
        print_CANCELLED t3 0%nat;
        print_Backtest_Finished]).
Proof.
  split; [exact pending_stop_observation|].
  intros. vm_compute. reflexivity.
Qed.

(** A SELL stop-limit with trigger 98, observed at 97. *)
Lemma stop_limit_activation_witness :
  exists o' evs,
    objects (snd (update 0%nat 2 97 (mkStore [stop_sell_98] [] [])))
      !! 0%nat = Some o' /\
    stdout (snd (update 0%nat 2 97 (mkStore [stop_sell_98] [] []))) = evs /\
    In (print_ACTIVATED 2 0%nat) evs /\ status o' <> PENDING.
Proof.
  destruct (proj1 stop_limit_activation (mkStore [stop_sell_98] [] []) 0%nat
              stop_sell_98 2 97%Q 98%Q 98%Q eq_refl eq_refl eq_refl eq_refl eq_refl)
    as (o' & evs & Hx & Hout & Hact & Hst & _).
  assert (Htr : is_buy stop_sell_98 = true /\ (98 <= 97)%Q \/
                is_sell stop_sell_98 = true /\ (97 <= 98)%Q).
  { right. split; [reflexivity | discriminate]. }
  exists o', evs. split; [exact Hx|]. split; [exact Hout|].
  split; [apply Hact, Htr | apply Hst, Htr].
Defined.


End replay_facts.

(* ===================================================================== *)
(** * More on [validate_order_params]                                    *)
(* ===================================================================== *)

Module validation_more.
Import exact validation decimal_facts validation_facts scenarios.

Lemma find_app_first {A} (f : A -> bool) (l1 l2 : list A) :
  List.find f (l1 ++ l2) =
  match List.find f l1 with
  | Some x => Some x
  | None => List.find f l2
  end.
Proof.
  induction l1 as [|x l1 IH]; [done|]. cbn. by destruct (f x).
Qed.

Lemma find_none_forall {A} (f : A -> bool) (l : list A) :
  Forall (fun x => f x = false) l -> List.find f l = None.
Proof.
  induction 1 as [|x l Hx _ IH]; [done|]. cbn. by rewrite Hx.
Qed.

Lemma foldl_filters (d : gmap string Filter) (fs : list Filter) (t : string) :
  foldl (fun d f => <[filterType f := f]> d) d fs !! t =
  match List.find (fun f => String.eqb (filterType f) t) (rev fs) with
  | Some f => Some f
  | None => d !! t
  end.
Proof.
  revert d. induction fs as [|f fs IH]; intros d; [done|].
  cbn [foldl rev]. rewrite IH, find_app_first.
  destruct (List.find _ (rev fs)); [done|]. cbn.
  destruct (String.eqb_spec (filterType f) t) as [->|Hne].
  - by rewrite lookup_insert_eq.
  - by rewrite lookup_insert_ne.
Qed.

(** The filter the validator reads for a type is the last one of that type
    in the list of the symbol. *)
Theorem last_filter_of_a_type_applies (fs : list Filter) (t : string) :
  filters_dict fs !! t
  = List.find (fun f => String.eqb (filterType f) t) (rev fs).
Proof.
  unfold filters_dict. rewrite foldl_filters.
  by destruct (List.find _ (rev fs)).
Qed.

Lemma symbol_not_listed (l : list SymbolInfo) (sym : string) :
  Forall (fun s => symbol s <> sym) l ->
  List.find (fun s => String.eqb (symbol s) sym) l = None.
Proof.
  intros H. apply find_none_forall.
  eapply Forall_impl; [exact H|]. intros s Hs. by apply String.eqb_neq.
Qed.

(** Without exchange information, or for a symbol that is not listed, the
    call returns [False] having looked at neither quantity nor price. *)
Theorem unknown_symbol_rejected info sym q p :
  info = None \/
  (exists l, info = Some l /\ Forall (fun s => symbol s <> sym) l) ->
  validate_order_params info sym q p =
  (Return false,
   match info with
   | None => [warning_exchange_info_not_available]
   | Some _ => []
   end ++ [error_symbol_not_found sym]).
Proof.
  intros [->|(l & -> & Hl)]; unfold validate_order_params, get_symbol_info.
  - done.
  - by rewrite symbol_not_listed.
Qed.

Lemma unknown_symbol_rejected_witness :
  validate_order_params rule_A "ETHUSDT" (mkDecimal 15 (-3)) None
  = (Return false, [error_symbol_not_found "ETHUSDT"]).
Proof.
  apply (unknown_symbol_rejected rule_A "ETHUSDT" (mkDecimal 15 (-3)) None).
  right. eexists. split; [reflexivity|].
  repeat constructor. discriminate.
Defined.

(** The rules applied are those of the first entry listed under the
    symbol: entries with another name before it, and whatever follows it,
    change nothing. *)
Theorem first_listed_symbol_applies l1 s l2 sym q p :
  symbol s = sym -> Forall (fun s' => symbol s' <> sym) l1 ->
  validate_order_params (Some (l1 ++ s :: l2)) sym q p
  = validate_order_params (Some [s]) sym q p.
Proof.
  intros Hs Hl1. unfold validate_order_params, get_symbol_info.
  rewrite find_app_first, symbol_not_listed by done. cbn [List.find].
  by rewrite Hs, String.eqb_refl.
Qed.

Lemma first_listed_symbol_applies_witness :
  validate_order_params
    (Some ([mkSymbolInfo "ETHUSDT" []] ++ symbol_A
             :: [mkSymbolInfo "BTCUSDT" []]))
    "BTCUSDT" (mkDecimal 15 (-4)) None
  = validate_order_params (Some [symbol_A]) "BTCUSDT" (mkDecimal 15 (-4)) None.
Proof.
  apply first_listed_symbol_applies; [reflexivity|].
  repeat constructor. discriminate.
Defined.

(** The result of the quantity block, case by case. *)
Lemma lot_size_block filters q mn mx st :
  filters !! "LOT_SIZE" = Some (LOT_SIZE mn mx st) ->
  validate_lot_size filters q =
  if lt q mn then
    (Leave (Return false), [error_quantity_too_small q mn])
  else if lt mx q then
    (Leave (Return false), [error_quantity_too_large q mx])
  else
    match rem (sub q mn) st with
    | None => (Leave (Raise InvalidOperation), [])
    | Some r =>
        if nonzero r then
          (Leave (Return false),
           [error_invalid_quantity_precision q st;
            info_valid_quantity_might_be
              (add (quantize_ROUND_DOWN (sub q mn) st) mn)])
        else (Next, [])
    end.
Proof. intros Hf. unfold validate_lot_size, gt. by rewrite Hf. Qed.

Lemma leaves_at_lot_size info sym si q p o log :
  fst (get_symbol_info info sym) = Some si ->
  validate_lot_size (filters_dict (filters si)) q = (Leave o, log) ->
  validate_order_params info sym q p = (o, log).
Proof.
  intros Hs Hl. unfold validate_order_params.
  by rewrite (found_symbol _ _ _ Hs), Hl.
Qed.

(** A quantity below [minQty] is rejected as too small, one above [maxQty]
    as too large, whatever the price. *)
Theorem quantity_out_of_range info sym si q p mn mx st :
  fst (get_symbol_info info sym) = Some si ->
  filters_dict (filters si) !! "LOT_SIZE" = Some (LOT_SIZE mn mx st) ->
  ((value q < value mn)%Q ->
   validate_order_params info sym q p
   = (Return false, [error_quantity_too_small q mn])) /\
  ((value mn <= value q)%Q -> (value mx < value q)%Q ->
   validate_order_params info sym q p
   = (Return false, [error_quantity_too_large q mx])).
Proof.
  intros Hs Hf. split.
  - intros Hlo. apply (leaves_at_lot_size _ _ _ _ _ _ _ Hs).
    rewrite (lot_size_block _ _ _ _ _ Hf).
    apply lt_value in Hlo. by rewrite Hlo.
  - intros Hlo Hhi. apply (leaves_at_lot_size _ _ _ _ _ _ _ Hs).
    rewrite (lot_size_block _ _ _ _ _ Hf).
    apply lt_value_false in Hlo. apply lt_value in Hhi.
    by rewrite Hlo, Hhi.
Qed.

Lemma quantity_out_of_range_witness :
  validate_order_params rule_A "BTCUSDT" (mkDecimal 2000 0) None
  = (Return false,
     [error_quantity_too_large (mkDecimal 2000 0) (mkDecimal 1000 0)]).
Proof.
  refine (proj2 (quantity_out_of_range rule_A "BTCUSDT" symbol_A
                   (mkDecimal 2000 0) None (mkDecimal 1 (-3))
                   (mkDecimal 1000 0) (mkDecimal 1 (-3)) _ _) _ _).
  - reflexivity.
  - vm_compute. reflexivity.
  - vm_compute. discriminate.
  - vm_compute. reflexivity.
Defined.

(** A rejected quantity settles the call: the price is never looked at. *)
Theorem rejected_quantity_ignores_price info sym q p :
  fst (validate_order_params info sym q None) <> Return true ->
  validate_order_params info sym q (Some p)
  = validate_order_params info sym q None.
Proof.
  unfold validate_order_params.
  destruct (get_symbol_info info sym) as [[si|] log0]; [|done].
  destruct (validate_lot_size _ q) as [[|o] log1]; [|done].
  cbn. intros H. by destruct H.
Qed.

Lemma rejected_quantity_ignores_price_witness :
  validate_order_params rule_A "BTCUSDT" (mkDecimal 15 (-4))
                        (Some (mkDecimal 5 (-2)))
  = validate_order_params rule_A "BTCUSDT" (mkDecimal 15 (-4)) None.
Proof.
  apply rejected_quantity_ignores_price. vm_compute. discriminate.
Defined.







Lemma no_filter_of_type (fs : list Filter) (t : string) :
  Forall (fun f => filterType f <> t) fs -> filters_dict fs !! t = None.
Proof.
  intros H. unfold filters_dict. rewrite foldl_filters, lookup_empty.
  rewrite find_none_forall; [done|].
  apply Forall_rev. eapply Forall_impl; [exact H|].
  intros f Hf. by apply String.eqb_neq.
Qed.

(** For a listed symbol with no LOT_SIZE and no PRICE_FILTER entry, every
    quantity and price is accepted. *)
Theorem no_filter_no_check info sym si q p :
  fst (get_symbol_info info sym) = Some si ->
  Forall (fun f => filterType f <> "LOT_SIZE") (filters si) ->
  Forall (fun f => filterType f <> "PRICE_FILTER") (filters si) ->
  validate_order_params info sym q p
  = (Return true, [info_order_parameters_valid sym q p]).
Proof.
  intros Hs Hl Hp. unfold validate_order_params.
  rewrite (found_symbol _ _ _ Hs).
  unfold validate_lot_size, validate_price_filter.
  rewrite (no_filter_of_type _ _ Hl), (no_filter_of_type _ _ Hp).
  by destruct p.
Qed.

Lemma no_filter_no_check_witness :
  validate_order_params
    (Some [mkSymbolInfo "BTCUSDT" [OTHER_FILTER "MARKET_LOT_SIZE"]])
    "BTCUSDT" (mkDecimal (-7) 0) (Some (mkDecimal 0 0))
  = (Return true,
     [info_order_parameters_valid "BTCUSDT" (mkDecimal (-7) 0)
                                  (Some (mkDecimal 0 0))]).
Proof.
  apply (no_filter_no_check _ "BTCUSDT"
           (mkSymbolInfo "BTCUSDT" [OTHER_FILTER "MARKET_LOT_SIZE"])).
  - reflexivity.
  - repeat constructor. discriminate.
  - repeat constructor. discriminate.
Defined.




End validation_more.

(* ===================================================================== *)
(** * More on [place_simulated_oco_order]                                *)
(* ===================================================================== *)

Module placement_more.
Import oco placement requests scenarios.

Section exchange.

Variable Exchange : Type.
Variable create :
  CreateOrder -> Exchange -> (BinanceAPIException + OrderResponse) * Exchange.
Variable cancel :
  string -> option Z -> Exchange -> (BinanceAPIException + unit) * Exchange.
Variables (symbol side : string).
Variables (quantity take_profit_price stop_loss_price : Q).

Let tp_request : CreateOrder :=
  mkCreateOrder symbol (python.upper side) "TAKE_PROFIT_MARKET"
                take_profit_price quantity true.
Let sl_request : CreateOrder :=
  mkCreateOrder symbol (python.upper side) "STOP_MARKET"
                stop_loss_price quantity true.
Let place (ex : Exchange) :=
  place_simulated_oco_order Exchange create cancel symbol side quantity
                            take_profit_price stop_loss_price ex.



(** When the exchange refuses the take-profit request, no stop-loss request
    is sent and nothing is cancelled; the function returns [None] on the
    state that refusal left, whatever the exchange would have answered to
    anything else. *)
Theorem oco_first_leg_refused (ex ex1 : Exchange) (e : BinanceAPIException) :
  create tp_request ex = (inl e, ex1) ->
  fst (fst (place ex)) = None /\
  create_requests (snd (fst (place ex))) = [tp_request] /\
  cancel_requests (snd (fst (place ex))) = [] /\
  In (error_failed_take_profit (code e) (message e)) (snd (fst (place ex))) /\
  snd (place ex) = ex1.
Proof using Type.
  intros Htp. unfold place, place_simulated_oco_order.
  fold tp_request. rewrite Htp. cbn. tauto.
Qed.

End exchange.

Lemma oco_first_leg_refused_witness :
  fst (fst (place_simulated_oco_order unit create_A_fails cancel_ok
              "BTCUSDT" "sell" 1 105 98 tt)) = None /\
  create_requests
    (snd (fst (place_simulated_oco_order unit create_A_fails cancel_ok
                 "BTCUSDT" "sell" 1 105 98 tt)))
  = [mkCreateOrder "BTCUSDT" "SELL" "TAKE_PROFIT_MARKET" 105 1 true].
Proof.
  destruct (oco_first_leg_refused unit create_A_fails cancel_ok
              "BTCUSDT" "sell" 1 105 98 tt tt error_B eq_refl)
    as (H1 & H2 & _).
  split; [exact H1 | exact H2].
Defined.

End placement_more.

(* ===================================================================== *)
(** * More on [class Order]                                              *)
(* ===================================================================== *)

Module order_more.
Import test_strategies observation pairs lifecycle scenarios order_facts.

Lemma same_terms_refl o : same_terms o o.
Proof. by repeat split. Qed.

Lemma same_terms_trans o1 o2 o3 :
  same_terms o1 o2 -> same_terms o2 o3 -> same_terms o1 o3.
Proof.
  intros (?&?&?&?&?&?) (?&?&?&?&?&?). repeat split; congruence.
Qed.

Lemma moves_refl a : moves a a = true.
Proof. by destruct a. Qed.

Lemma moves_trans a b c :
  moves a b = true -> moves b c = true -> moves a c = true.
Proof. by destruct a, b, c. Qed.

Lemma moves_back a b : moves a b = true -> moves b a = true -> a = b.
Proof. by destruct a, b. Qed.

Lemma evolves_refl o : evolves o o.
Proof.
  split; [apply same_terms_refl|]. split; [apply moves_refl|]. by split.
Qed.

Lemma evolves_trans o1 o2 o3 : evolves o1 o2 -> evolves o2 o3 -> evolves o1 o3.
Proof.
  intros (T1 & M1 & C1 & F1) (T2 & M2 & C2 & F2).
  split; [by eapply same_terms_trans|].
  split; [by eapply moves_trans|].
  split; [by intros t Ht; apply C2, C1|].
  intros H. rewrite <- H in M1.
  assert (status o2 = status o3) by (by apply moves_back).
  assert (H21 : status o2 = status o1) by congruence.
  assert (H32 : status o3 = status o2) by congruence.
  destruct (F1 H21) as [E1 E2]. destruct (F2 H32) as [E3 E4].
  split; congruence.
Qed.

(** The order observed, after [update]. *)
Lemma update_self s y ts p o :
  objects s !! y = Some o ->
  exists o',
    objects (snd (update y ts p s)) !! y = Some o' /\
    same_terms o o' /\
    (o' = o \/
     is_done o = false /\
     created_at o'
       = Some (match created_at o with Some t => t | None => ts end) /\
     (status o' = status o /\
      filled_at o' = filled_at o /\ filled_price o' = filled_price o \/
      status o = PENDING /\ status o' = ACTIVE /\
      order_type o = "STOP_LIMIT" /\
      filled_at o' = filled_at o /\ filled_price o' = filled_price o \/
      status o' = FILLED /\
      filled_at o' = Some ts /\ filled_price o' = Some p)).
Proof.
  intros Hx. rewrite update_run, Hx.
  destruct (is_done o) eqn:Hd.
  { exists o. split; [done|]. split; [apply same_terms_refl | by left]. }
  cbn zeta.
  pose proof (stamp_lookup y ts o s Hx) as Hx1.
  assert (Hd1 : is_done (stamped o ts) = false) by (by rewrite stamped_done).
  assert (Ht1 : same_terms o (stamped o ts))
    by (unfold stamped; destruct (created_at o); by repeat split).
  assert (Hc1 : created_at (stamped o ts)
                = Some (match created_at o with Some t => t | None => ts end))
    by (unfold stamped; by destruct (created_at o) eqn:E).
  assert (Hf1 : status (stamped o ts) = status o /\
                filled_at (stamped o ts) = filled_at o /\
                filled_price (stamped o ts) = filled_price o)
    by (unfold stamped; by destruct (created_at o)).
  destruct (activation (stamped o ts) p) as [act|] eqn:Hact.
  2: { exists (stamped o ts). cbn [snd]. split; [done|]. split; [done|].
       right. split; [done|]. split; [done|]. by left. }
  pose proof (activate_lookup y ts act _ _ Hx1) as Hx2.
  pose proof (activated_done act _ Hd1) as Hd2.
  set (o2 := activated act (stamped o ts)) in *.
  set (s2 := activate y ts act (stamped o ts) (stamp y ts o s)) in *.
  assert (Ht2 : same_terms o o2).
  { eapply same_terms_trans; [exact Ht1|]. unfold o2.
    destruct act; by repeat split. }
  assert (Hc2 : created_at o2
                = Some (match created_at o with Some t => t | None => ts end))
    by (unfold o2; by destruct act).
  assert (Hs2 :
    status o2 = status o /\
    filled_at o2 = filled_at o /\ filled_price o2 = filled_price o \/
    status o = PENDING /\ status o2 = ACTIVE /\
    order_type o = "STOP_LIMIT" /\
    filled_at o2 = filled_at o /\ filled_price o2 = filled_price o).
  { unfold o2. destruct act; [right | by left].
    unfold activation in Hact.
    destruct Ht1 as (Hty & _). destruct Hf1 as (Hst & Hfa & Hfp).
    rewrite Hty, Hst in Hact.
    destruct (String.eqb_spec (order_type o) "STOP_LIMIT") as [Heq|];
      [|by cbn in Hact].
    destruct (status o) eqn:Hso; by cbn in Hact. }
  assert (Hstay : forall r : Result unit, exists o',
    objects (snd (r, s2)) !! y = Some o' /\ same_terms o o' /\
    (o' = o \/
     is_done o = false /\
     created_at o'
       = Some (match created_at o with Some t => t | None => ts end) /\
     (status o' = status o /\
      filled_at o' = filled_at o /\ filled_price o' = filled_price o \/
      status o = PENDING /\ status o' = ACTIVE /\
      order_type o = "STOP_LIMIT" /\
      filled_at o' = filled_at o /\ filled_price o' = filled_price o \/
      status o' = FILLED /\
      filled_at o' = Some ts /\ filled_price o' = Some p))).
  { intros r. exists o2. split; [done|]. split; [done|].
    right. split; [done|]. split; [done|].
    destruct Hs2 as [H|H]; [by left | by right; left]. }
  rewrite Hd in Hstay.
  destruct (eligible o2); [|apply Hstay].
  destruct (crossing o2 le ge p (price o2)) as [[|]|];
    [|apply Hstay|apply Hstay].
  exists (set_filled o2 ts p).
  split; [apply fill_self; [done|]; apply is_done_status in Hd2; tauto|].
  split; [by eapply same_terms_trans; [exact Ht2|]|].
  right. split; [done|]. split; [done|]. by right; right.
Qed.

(** Another order of the store, after [fill]: it is as it was, or it was
    live and is now cancelled. *)
Lemma fill_other s x ts p r o :
  r <> x -> objects s !! r = Some o ->
  objects (snd (fill x ts p s)) !! r = Some o \/
  is_done o = false /\
  objects (snd (fill x ts p s)) !! r = Some (set_status o CANCELLED) /\
  exists ox, objects s !! x = Some ox /\ oco_peer ox = Some r /\
             status ox <> FILLED.
Proof.
  intros Hne Hr. rewrite fill_run.
  destruct (objects s !! x) as [ox|] eqn:Hx; [|by left].
  destruct (status_eqb _ FILLED) eqn:Hsf; [by left|]. cbn zeta.
  assert (Hnf : status ox <> FILLED) by (intros E; by rewrite E in Hsf).
  assert (Hr1 : <[x := set_filled ox ts p]> (objects s) !! r = Some o)
    by (by rewrite list_lookup_insert_ne).
  destruct (oco_peer ox) as [peer|] eqn:Hp; [|by left].
  rewrite cancel_run. cbn [objects after_print after_put].
  destruct (_ !! peer) as [po|] eqn:Hpo; [|by left].
  destruct (is_done po) eqn:Hdp; [by left|]. cbn.
  destruct (decide (peer = r)) as [->|Hpr].
  - right. assert (po = o) by congruence. subst po.
    split; [done|]. split; [by eapply lookup_insert_same | by exists ox].
  - left. by rewrite list_lookup_insert_ne.
Qed.

(** Another order of the store, after [update]. *)
Lemma update_other s y ts p r o :
  r <> y -> objects s !! r = Some o ->
  objects (snd (update y ts p s)) !! r = Some o \/
  is_done o = false /\
  objects (snd (update y ts p s)) !! r = Some (set_status o CANCELLED) /\
  status_at (objects (snd (update y ts p s))) y = Some FILLED /\
  exists oy, objects s !! y = Some oy /\ oco_peer oy = Some r.
Proof.
  intros Hne Hr. rewrite update_run.
  destruct (objects s !! y) as [oy|] eqn:Hy; [|by left].
  destruct (is_done oy); [by left|]. cbn zeta.
  assert (Hr1 : objects (stamp y ts oy s) !! r = Some o)
    by (by rewrite stamp_other).
  destruct (activation (stamped oy ts) p) as [act|]; [|by left].
  assert (Hr2 : objects (activate y ts act (stamped oy ts) (stamp y ts oy s))
                  !! r = Some o) by (by rewrite activate_other).
  pose proof (activate_lookup y ts act _ _ (stamp_lookup y ts oy s Hy)) as Hy2.
  destruct (eligible _); [|by left].
  destruct (crossing _ le ge p _) as [[|]|]; [|by left|by left].
  destruct (fill_other _ y ts p r o Hne Hr2)
    as [H|(Hd & H & ox & Hox & Hp & Hnf)]; [by left|].
  right. split; [done|]. split; [done|].
  rewrite Hy2 in Hox. injection Hox as <-.
  split.
  - unfold status_at. by rewrite (fill_self _ _ _ ts p Hy2 Hnf).
  - exists oy. split; [done|].
    by rewrite activated_peer, stamped_peer in Hp.
Qed.

Lemma update_evolves s y ts p r o :
  objects s !! r = Some o ->
  exists o', objects (snd (update y ts p s)) !! r = Some o' /\ evolves o o'.
Proof.
  intros Hr. destruct (decide (r = y)) as [->|Hne].
  - destruct (update_self s y ts p o Hr) as (o' & Hl & Ht & Hc).
    exists o'. split; [done|].
    destruct Hc as [->|(Hd & Hca & Hst)]; [apply evolves_refl|].
    split; [done|]. apply is_done_status in Hd as [Hnf Hnc].
    destruct Hst as [(Hs & Hfa & Hfp)|[(Hs & Hs' & _ & Hfa & Hfp)|(Hs & Hfa & Hfp)]].
    + rewrite Hs. split; [apply moves_refl|].
      split; [intros t Ht'; by rewrite Hca, Ht' | done].
    + rewrite Hs, Hs'. split; [done|].
      split; [intros t Ht'; by rewrite Hca, Ht' | done].
    + rewrite Hs. split; [by destruct (status o)|].
      split; [intros t Ht'; by rewrite Hca, Ht' | congruence].
  - destruct (update_other s y ts p r o Hne Hr) as [H|(Hd & H & _ & _)].
    + exists o. split; [done | apply evolves_refl].
    + exists (set_status o CANCELLED). split; [done|].
      apply is_done_status in Hd as [Hnf Hnc].
      split; [by repeat split|]. split; [by destruct (status o)|].
      split; [done|]. cbn. congruence.
Qed.

(** [cancel] changes the order it is called on and nothing else: the peer
    of a cancelled leg is left as it is. A live order becomes CANCELLED and
    one line is printed; a done order is left alone; cancelling again
    changes and prints nothing. *)
Theorem cancel_touches_only_self s x o ts :
  objects s !! x = Some o ->
  let s' := snd (cancel x ts s) in
  objects s' !! x = Some (if is_done o then o else set_status o CANCELLED) /\
  (forall r, r <> x -> objects s' !! r = objects s !! r) /\
  stdout s' = stdout s ++ (if is_done o then [] else [print_CANCELLED ts x]) /\
  (forall ts', cancel x ts' s' = (Ok tt, s')).
Proof.
  intros Hx s'. subst s'. rewrite (cancel_run s), Hx.
  destruct (is_done o) eqn:Hd; cbn [snd].
  - split; [done|]. split; [done|]. split; [by rewrite app_nil_r|].
    intros ts'. by eapply cancel_done.
  - cbn. split; [by eapply lookup_insert_same|].
    split; [by intros r Hr; rewrite list_lookup_insert_ne|].
    split; [done|]. intros ts'.
    eapply cancel_done; [by eapply lookup_insert_same | done].
Qed.

Lemma cancel_touches_only_self_witness :
  objects (snd (cancel 0%nat 4 (store world_with_pair))) !! 1%nat
  = objects (store world_with_pair) !! 1%nat.
Proof.
  destruct (cancel_touches_only_self (store world_with_pair) 0%nat
              (mkOrder "LIMIT" "SELL" 1 (Some 105%Q) None PENDING
                       None None None (Some 1%nat)) 4 eq_refl)
    as (_ & H & _).
  apply H. discriminate.
Defined.

(** [update] on an order changes no order but that one and its peer; and
    the peer only by cancelling it, when it was live and the order observed
    has just been filled. *)
Theorem update_touches_self_and_peer s y oy ts p r o :
  objects s !! y = Some oy ->
  r <> y -> objects s !! r = Some o ->
  let s' := snd (update y ts p s) in
  (oco_peer oy <> Some r -> objects s' !! r = Some o) /\
  (objects s' !! r = Some o \/
   is_done o = false /\ oco_peer oy = Some r /\
   status_at (objects s') y = Some FILLED /\
   objects s' !! r = Some (set_status o CANCELLED)).
Proof.
  intros Hy Hne Hr s'. subst s'.
  destruct (update_other s y ts p r o Hne Hr)
    as [H|(Hd & H & Hf & oy' & Hy' & Hp)].
  - split; [done | by left].
  - assert (oy' = oy) by congruence. subst oy'.
    split; [by intros Hn | by right].
Qed.

Lemma update_touches_self_and_peer_witness :
  objects (snd (update 0%nat 5 106 (store world_with_pair))) !! 1%nat
  = Some (set_status
            (mkOrder "STOP_LIMIT" "SELL" 1 (Some 98%Q) (Some 98%Q) PENDING
                     None None None (Some 0%nat)) CANCELLED).
Proof.
  destruct (update_touches_self_and_peer (store world_with_pair) 0%nat
              (mkOrder "LIMIT" "SELL" 1 (Some 105%Q) None PENDING
                       None None None (Some 1%nat)) 5 106%Q 1%nat
              (mkOrder "STOP_LIMIT" "SELL" 1 (Some 98%Q) (Some 98%Q) PENDING
                       None None None (Some 0%nat))
              eq_refl ltac:(discriminate) eq_refl)
    as (_ & [H|(_ & _ & _ & H)]).
  - vm_compute in H. discriminate.
  - exact H.
Defined.

(** An order whose type is neither LIMIT nor STOP_LIMIT (a MARKET order,
    say), or whose side is neither BUY nor SELL, is never activated nor
    filled: an observation only sets [created_at], raises nothing, prints
    nothing and leaves the other orders alone. *)
Theorem inert_orders s x o ts p :
  objects s !! x = Some o -> status o = PENDING ->
  (order_type o <> "LIMIT" /\ order_type o <> "STOP_LIMIT") \/
  (side o <> "BUY" /\ side o <> "SELL") ->
  let s' := snd (update x ts p s) in
  fst (update x ts p s) = Ok tt /\
  objects s' !! x = Some (stamped o ts) /\
  status (stamped o ts) = PENDING /\
  (forall r, r <> x -> objects s' !! r = objects s !! r) /\
  stdout s' = stdout s.
Proof.
  intros Hx Hst Hin s'. subst s'. rewrite update_run, Hx.
  assert (Hd : is_done o = false) by (unfold is_done; by rewrite Hst).
  rewrite Hd. cbn zeta.
  destruct (stamped_fields o ts) as (Hty & Hsd & _ & Hpr & Htr).
  assert (Hstay : forall r : Result unit, r = Ok tt ->
    fst (r, stamp x ts o s) = Ok tt /\
    objects (snd (r, stamp x ts o s)) !! x = Some (stamped o ts) /\
    status (stamped o ts) = PENDING /\
    (forall r', r' <> x ->
                objects (snd (r, stamp x ts o s)) !! r' = objects s !! r') /\
    stdout (snd (r, stamp x ts o s)) = stdout s).
  { intros r ->. cbn [fst snd]. split; [done|].
    split; [by apply stamp_lookup|]. split; [by rewrite stamped_status|].
    split; [by intros r' Hr'; apply stamp_other | apply stamp_stdout]. }
  destruct Hin as [[Hnl Hns]|[Hnb Hnsl]].
  - assert (Ha : activation (stamped o ts) p = Some false).
    { unfold activation. rewrite Hty.
      by destruct (String.eqb_spec (order_type o) "STOP_LIMIT"). }
    rewrite Ha. unfold activate, activated.
    assert (He : eligible (stamped o ts) = false).
    { unfold eligible. rewrite Hty, stamped_status, Hst.
      by destruct (String.eqb_spec (order_type o) "LIMIT"). }
    rewrite He. by apply Hstay.
  - assert (Hcr : forall f g l, crossing (stamped o ts) f g p l = Some false).
    { intros f g l. unfold crossing, is_buy, is_sell. rewrite Hsd.
      destruct (String.eqb_spec (side o) "BUY"); [done|].
      by destruct (String.eqb_spec (side o) "SELL"). }
    assert (Ha : activation (stamped o ts) p = Some false).
    { unfold activation. rewrite Hcr. by destruct (_ && _). }
    rewrite Ha. unfold activate, activated.
    destruct (eligible _); [|by apply Hstay].
    rewrite Hcr. by apply Hstay.
Qed.

Lemma inert_orders_witness :
  fst (update 0%nat 3 50
         (mkStore [mkOrder "MARKET" "BUY" 1 None None PENDING
                           None None None None] [] [])) = Ok tt.
Proof.
  refine (proj1 (inert_orders
              (mkStore [mkOrder "MARKET" "BUY" 1 None None PENDING
                                None None None None] [] [])
              0%nat _ 3 50%Q eq_refl eq_refl
              (or_introl (conj _ _)))); discriminate.
Defined.



(** [a.link_oco_peer(b)] on two distinct orders makes each the peer of the
    other and changes nothing else: their other attributes, and the other
    orders - among them the peers [a] and [b] had before, which keep naming
    them. *)
Theorem link_oco_peer_links s a b oa ob :
  a <> b -> objects s !! a = Some oa -> objects s !! b = Some ob ->
  let s' := snd (link_oco_peer a b s) in
  fst (link_oco_peer a b s) = Ok tt /\
  objects s' !! a = Some (set_oco_peer oa b) /\
  objects s' !! b = Some (set_oco_peer ob a) /\
  (forall r, r <> a -> r <> b -> objects s' !! r = objects s !! r) /\
  linked a b (objects s') /\ stdout s' = stdout s.
Proof.
  intros Hab Ha Hb s'. subst s'.
  unfold link_oco_peer. unfold_M. rewrite get_run, Ha, put_run, get_run.
  cbn [objects after_put]. rewrite list_lookup_insert_ne by done.
  rewrite Hb, put_run. cbn.
  assert (Ha' : <[b := set_oco_peer ob a]> (<[a := set_oco_peer oa b]> (objects s))
                !! a = Some (set_oco_peer oa b)).
  { rewrite list_lookup_insert_ne by done. by eapply lookup_insert_same. }
  assert (Hb' : <[b := set_oco_peer ob a]> (<[a := set_oco_peer oa b]> (objects s))
                !! b = Some (set_oco_peer ob a)).
  { eapply lookup_insert_same. by rewrite list_lookup_insert_ne. }
  split; [done|]. split; [done|]. split; [done|].
  split; [by intros r Hra Hrb; rewrite !list_lookup_insert_ne|].
  split; [|done]. by exists (set_oco_peer oa b), (set_oco_peer ob a).
Qed.

Lemma link_oco_peer_links_witness :
  linked 0%nat 1%nat
    (objects (snd (link_oco_peer 0%nat 1%nat
                     (mkStore [limit_sell_105; stop_sell_98] [] [])))).
Proof.
  destruct (link_oco_peer_links (mkStore [limit_sell_105; stop_sell_98] [] [])
              0%nat 1%nat limit_sell_105 stop_sell_98
              ltac:(discriminate) eq_refl eq_refl)
    as (_ & _ & _ & _ & H & _).
  exact H.
Defined.

(** ** No exception on well-formed orders *)

Lemma cancel_length s x ts :
  length (objects (snd (cancel x ts s))) = length (objects s).
Proof.
  rewrite cancel_run. destruct (objects s !! x) as [o|]; [|done].
  destruct (is_done o); [done|]. cbn. apply length_insert.
Qed.

Lemma fill_length s x ts p :
  length (objects (snd (fill x ts p s))) = length (objects s).
Proof.
  rewrite fill_run. destruct (objects s !! x) as [o|]; [|done].
  destruct (status_eqb _ _); [done|]. cbn zeta.
  destruct (oco_peer o); [|cbn; apply length_insert].
  rewrite cancel_length. cbn. apply length_insert.
Qed.

Lemma update_length s x ts p :
  length (objects (snd (update x ts p s))) = length (objects s).
Proof.
  rewrite update_run. destruct (objects s !! x) as [o|]; [|done].
  destruct (is_done o); [done|]. cbn zeta.
  assert (H1 : length (objects (stamp x ts o s)) = length (objects s)).
  { unfold stamp. destruct (created_at o); [done|]. cbn. apply length_insert. }
  destruct (activation _ p) as [act|]; [|done].
  assert (H2 : length (objects (activate x ts act (stamped o ts)
                                  (stamp x ts o s))) = length (objects s)).
  { unfold activate. destruct act; [|done]. cbn. by rewrite length_insert. }
  destruct (eligible _); [|done].
  destruct (crossing _ le ge p _) as [[|]|]; try done.
  by rewrite fill_length.
Qed.

Lemma update_domain s x ts p r :
  is_Some (objects (snd (update x ts p s)) !! r) <-> is_Some (objects s !! r).
Proof. by rewrite !lookup_lt_is_Some, update_length. Qed.

Lemma well_formed_evolved o o' :
  well_formed o -> same_terms o o' ->
  (status o' = status o /\ filled_price o' = filled_price o \/
   status o' = ACTIVE /\ order_type o = "STOP_LIMIT" \/
   status o' = FILLED /\ is_Some (filled_price o') \/
   status o' = CANCELLED) ->
  well_formed o'.
Proof.
  intros (W1 & W2 & W3 & W4) (Hty & _ & _ & Hpr & Htr & _) Hc.
  unfold well_formed. rewrite Hty, Hpr, Htr.
  split; [done|]. split; [done|].
  destruct Hc as [[Hs Hf]|[[Hs Ht]|[[Hs Hf]|Hs]]]; rewrite Hs.
  - by rewrite Hf.
  - done.
  - done.
  - done.
Qed.

Lemma update_ok s x ts p :
  well_formed_store s -> is_Some (objects s !! x) ->
  fst (update x ts p s) = Ok tt /\
  well_formed_store (snd (update x ts p s)).
Proof.
  intros Hwf [o Hx]. split.
  - destruct (Hwf x o Hx) as ((W1 & W2 & W3 & W4) & Hpeer).
    rewrite update_run, Hx.
    destruct (is_done o) eqn:Hd; [done|]. cbn zeta.
    destruct (stamped_fields o ts) as (Hty & Hsd & _ & Hpr & Htr).
    pose proof (stamp_lookup x ts o s Hx) as Hx1.
    assert (Hact : exists act, activation (stamped o ts) p = Some act /\
                     (act = true -> order_type o = "STOP_LIMIT")).
    { unfold activation. rewrite Hty, Htr.
      destruct (String.eqb_spec (order_type o) "STOP_LIMIT") as [Hs|Hs];
        [|by exists false].
      destruct (status_eqb _ PENDING); [|by exists false]. cbn [andb].
      destruct (W2 Hs) as [tp ->]. rewrite crossing_some. by eexists. }
    destruct Hact as (act & -> & Hty2).
    pose proof (activate_lookup x ts act _ _ Hx1) as Hx2.
    destruct (eligible _) eqn:He; [|done].
    assert (Hp : is_Some (price o)).
    { unfold eligible in He. apply orb_true_iff in He as [He|He].
      - apply W1. right. destruct act; [by apply Hty2|].
        apply W3. cbn in He. rewrite stamped_status in He.
        by destruct (status o).
      - apply W1. left. apply String.eqb_eq in He.
        destruct act; cbn in He; congruence. }
    destruct Hp as [lp Hlp].
    assert (Hp2 : price (activated act (stamped o ts)) = Some lp)
      by (destruct act; cbn; congruence).
    rewrite Hp2, crossing_some. destruct (_ || _); [|done].
    eapply fill_ok; [done|]. intros peer Hpe.
    rewrite activated_peer, stamped_peer in Hpe.
    destruct (Hpeer peer Hpe) as [po Hpo].
    destruct (decide (peer = x)) as [->|Hne]; [by eexists|].
    rewrite activate_other, stamp_other by done. by eexists.
  - intros r o' Hr'.
    assert (Hr : is_Some (objects s !! r))
      by (apply (update_domain s x ts p); by eexists).
    destruct Hr as [o0 Hr].
    destruct (Hwf r o0 Hr) as (W & Hpeer).
    assert (Hterms : same_terms o0 o' /\ well_formed o').
    { destruct (decide (r = x)) as [->|Hne].
      - destruct (update_self s x ts p o0 Hr) as (o'' & Hl & Ht & Hc).
        assert (o'' = o') by congruence. subst o''. split; [done|].
        destruct Hc as [->|(_ & _ & Hc)]; [done|].
        eapply well_formed_evolved; [exact W | exact Ht |].
        destruct Hc as [(? & ? & ?)|[(? & ? & ? & ? & ?)|(? & ? & ->)]];
          [by left | by right; left | by right; right; left].
      - destruct (update_other s x ts p r o0 Hne Hr) as [H|(_ & H & _)].
        + assert (o' = o0) by congruence. subst o'.
          split; [apply same_terms_refl | done].
        + assert (o' = set_status o0 CANCELLED) by congruence. subst o'.
          split; [by repeat split|].
          eapply well_formed_evolved; [exact W | by repeat split |].
          by right; right; right. }
    destruct Hterms as [(_ & _ & _ & _ & _ & Hpe) Hw]. split; [done|].
    intros peer Hp. rewrite Hpe in Hp.
    apply update_domain. by apply Hpeer.
Qed.

Lemma world_with_pair_well_formed : well_formed_world world_with_pair.
Proof.
  split; [|by repeat constructor; eexists].
  intros r o Hr.
  destruct r as [|[|r]]; cbn in Hr; [| |discriminate];
    injection Hr as <-; (split; [|intros peer [= <-]; by eexists]);
    unfold well_formed; cbn; repeat split; intros; try done;
    try discriminate; by eexists.
Defined.

(** On a store of well-formed orders [update] raises nothing - no
    [TypeError] from a missing price - and leaves a store of well-formed
    orders. *)
Theorem update_never_raises s x ts p :
  well_formed_store s -> is_Some (objects s !! x) ->
  fst (update x ts p s) = Ok tt /\
  well_formed_store (snd (update x ts p s)).
Proof. apply update_ok. Qed.

Lemma update_never_raises_witness :
  fst (update 1%nat 2 97 (store world_with_pair)) = Ok tt.
Proof.
  refine (proj1 (update_never_raises (store world_with_pair) 1%nat 2 97%Q
                   (proj1 world_with_pair_well_formed) _)).
  by eexists.
Defined.

End order_more.

(* ===================================================================== *)
(** * More on [class Backtester]                                         *)
(* ===================================================================== *)

Module replay_more.
Import test_strategies observation pairs lifecycle scenarios outcome report.
Import order_facts replay_facts order_more.

(** ** What a replay does to the ledger and to the open orders *)

Lemma execute_fill_ledger order w :
  let b := backtester w in
  let b' := backtester (snd (_execute_fill order w)) in
  (exists l, trade_log b' = trade_log b ++ l) /\
  initial_cash b' = initial_cash b /\ _orders b' = _orders b.
Proof.
  cbn zeta. destruct (objects (store w) !! order) as [o|] eqn:Hx.
  - rewrite (execute_fill_run _ _ _ Hx). cbn zeta.
    destruct (is_buy o), (is_sell o), (filled_price o); cbn;
      (split; [first [by eexists | by exists []; rewrite app_nil_r]|done]).
  - unfold _execute_fill, call. unfold_M. rewrite get_run, Hx. cbn.
    split; [by exists []; rewrite app_nil_r | done].
Qed.

Lemma observe_ledger order ts p w :
  let b := backtester w in
  let b' := backtester (snd (observe order ts p w)) in
  (exists l, trade_log b' = trade_log b ++ l) /\
  initial_cash b' = initial_cash b /\ _orders b' = _orders b.
Proof.
  cbn zeta. rewrite observe_run.
  assert (Hsame : forall b, (exists l, trade_log b = trade_log b ++ l) /\
                            initial_cash b = initial_cash b /\
                            _orders b = _orders b)
    by (intros b; split; [by exists []; rewrite app_nil_r | done]).
  destruct (update order ts p (store w)) as [[[]|e] s1]; [|apply Hsame].
  destruct (objects s1 !! order) as [o|]; [|apply Hsame].
  destruct (status_eqb _ _); [|apply Hsame].
  apply (execute_fill_ledger order (mkWorld (backtester w) s1)).
Qed.

Lemma for_orders_ledger l ts p w :
  let b := backtester w in
  let b' := backtester (snd (for_orders l ts p w)) in
  (exists tr, trade_log b' = trade_log b ++ tr) /\
  initial_cash b' = initial_cash b /\ _orders b' = _orders b.
Proof.
  cbn zeta. revert w. induction l as [|order rest IH]; intros w.
  { cbn. split; [by exists []; rewrite app_nil_r | done]. }
  rewrite for_orders_cons.
  pose proof (observe_ledger order ts p w) as ([l1 H1] & H2 & H3).
  destruct (observe order ts p w) as [[[]|e] w1]; cbn in H1, H2, H3.
  - destruct (IH w1) as ([l2 I1] & I2 & I3).
    split; [|split; congruence].
    exists (l1 ++ l2). rewrite I1, H1. by rewrite app_assoc.
  - cbn. split; [by exists l1 | done].
Qed.

Lemma filter_sublist {A} (f : A -> bool) (l : list A) :
  sublist (List.filter f l) l.
Proof.
  induction l as [|a l IH]; [constructor|]. cbn.
  destruct (f a); by constructor.
Qed.

Lemma tick_ledger ts p w :
  let b := backtester w in
  let b' := backtester (snd (tick ts p w)) in
  (exists tr, trade_log b' = trade_log b ++ tr) /\
  initial_cash b' = initial_cash b /\ sublist (_orders b') (_orders b).
Proof.
  cbn zeta. rewrite tick_run.
  pose proof (for_orders_ledger (_orders (backtester w)) ts p w)
    as (H1 & H2 & H3).
  destruct (for_orders _ ts p w) as [[[]|e] w1]; cbn in H1, H2, H3.
  - cbn. split; [done|]. split; [done|]. rewrite H3.
    apply filter_sublist.
  - cbn. split; [done|]. split; [done|]. by rewrite H3.
Qed.

Lemma replay_ledger data w :
  let b := backtester w in
  let b' := backtester (snd (replay data w)) in
  (exists trades, trade_log b' = trade_log b ++ trades) /\
  initial_cash b' = initial_cash b /\
  sublist (_orders b') (_orders b).
Proof.
  cbn zeta. revert w. induction data as [|[ts p] rest IH]; intros w.
  { cbn. split; [by exists []; rewrite app_nil_r | done]. }
  cbn [replay]. unfold_M.
  pose proof (tick_ledger ts p w) as ([l1 H1] & H2 & H3).
  destruct (tick ts p w) as [[[]|e] w1]; cbn in H1, H2, H3.
  - destruct (IH w1) as ([l2 I1] & I2 & I3).
    split; [|split; [congruence | by etrans]].
    exists (l1 ++ l2). rewrite I1, H1. by rewrite app_assoc.
  - cbn. split; [by exists l1 | done].
Qed.

(** The trade log only grows during a replay, [initial_cash] is never
    written and no order is added to the open orders: those left are among
    those there were, in the same order. *)
Theorem replay_appends_trades data w :
  let b := backtester w in
  let b' := backtester (snd (replay data w)) in
  (exists trades, trade_log b' = trade_log b ++ trades) /\
  initial_cash b' = initial_cash b /\
  sublist (_orders b') (_orders b).
Proof. apply replay_ledger. Qed.

Lemma replay_idle data w :
  _orders (backtester w) = [] -> replay data w = (Ok tt, w).
Proof.
  intros Ho. induction data as [|[ts p] rest IH]; [done|].
  cbn [replay]. unfold_M. rewrite tick_run, Ho. cbn.
  destruct w as [[ic c ps tl os] s]. cbn in Ho. subst os. exact IH.
Qed.

(** With no open order a replay changes nothing, whatever the data: once
    both legs of a pair are done the ledger is final. *)
Theorem replay_without_orders data w :
  _orders (backtester w) = [] -> replay data w = (Ok tt, w).
Proof. apply replay_idle. Qed.

Lemma replay_without_orders_witness :
  replay ticks_B fresh_world = (Ok tt, fresh_world).
Proof.
  apply replay_without_orders. reflexivity.
Defined.

(** ** What a replay does to the orders *)

Lemma for_orders_store_step (P : Store -> Prop) :
  (forall s y ts p, P s -> P (snd (update y ts p s))) ->
  forall l ts p w, P (store w) -> P (store (snd (for_orders l ts p w))).
Proof.
  intros Hstep l ts p. induction l as [|order rest IH]; intros w Hw; [done|].
  rewrite for_orders_cons.
  pose proof (observe_store order ts p w) as Hs.
  destruct (observe order ts p w) as [[[]|e] w1]; cbn in Hs.
  - apply IH. rewrite Hs. by apply Hstep.
  - cbn. rewrite Hs. by apply Hstep.
Qed.

Lemma replay_store_step (P : Store -> Prop) :
  (forall s y ts p, P s -> P (snd (update y ts p s))) ->
  forall data w, P (store w) -> P (store (snd (replay data w))).
Proof.
  intros Hstep data. induction data as [|[ts p] rest IH]; intros w Hw; [done|].
  cbn [replay]. unfold_M. rewrite tick_run.
  pose proof (for_orders_store_step P Hstep (_orders (backtester w)) ts p w Hw)
    as H.
  destruct (for_orders _ ts p w) as [[[]|e] w1]; cbn in H; [|done].
  cbn. by apply IH.
Qed.

(** Once FILLED or CANCELLED an order is never written again: not by
    [update] or [cancel], on whichever order they are called, nor by any
    replay. *)
Theorem done_orders_stay s x o :
  objects s !! x = Some o -> is_done o = true ->
  (forall y ts p, objects (snd (update y ts p s)) !! x = Some o) /\
  (forall y ts, objects (snd (cancel y ts s)) !! x = Some o) /\
  (forall b data,
     objects (store (snd (replay data (mkWorld b s)))) !! x = Some o).
Proof.
  intros Hx Hd. split; [|split].
  - intros y ts p. by apply update_keeps_done.
  - intros y ts. by apply cancel_keeps_done.
  - intros b data.
    apply (replay_store_step (fun s => objects s !! x = Some o)); [|done].
    intros s' y ts p Hs'. by apply update_keeps_done.
Qed.

Lemma done_orders_stay_witness :
  objects (store (snd (replay ticks_B
                         (mkWorld (Backtester__init__ 10000)
                            (mkStore [set_status limit_sell_105 CANCELLED]
                                     [] [])))))
    !! 0%nat = Some (set_status limit_sell_105 CANCELLED).
Proof.
  destruct (done_orders_stay
              (mkStore [set_status limit_sell_105 CANCELLED] [] []) 0%nat
              (set_status limit_sell_105 CANCELLED) eq_refl eq_refl)
    as (_ & _ & H).
  apply H.
Defined.

(** Through a replay every order keeps its type, side, quantity, prices and
    peer; its status only moves forward (PENDING, ACTIVE, then FILLED or
    CANCELLED); [created_at], once set, stays; and the fill date and price
    change only with the status. No object is added to or removed from the
    store. *)
Theorem replay_evolves data w r o :
  objects (store w) !! r = Some o ->
  (exists o', objects (store (snd (replay data w))) !! r = Some o' /\
              evolves o o') /\
  length (objects (store (snd (replay data w)))) = length (objects (store w)).
Proof.
  intros Hr. split.
  - apply (replay_store_step
             (fun s => exists o', objects s !! r = Some o' /\ evolves o o')).
    + intros s y ts p (o1 & H1 & E1).
      destruct (update_evolves s y ts p r o1 H1) as (o2 & H2 & E2).
      exists o2. split; [done | by eapply evolves_trans].
    + exists o. split; [done | apply evolves_refl].
  - apply (replay_store_step
             (fun s => length (objects s) = length (objects (store w))));
      [|done].
    intros s y ts p Hs. by rewrite update_length.
Qed.

Lemma replay_evolves_witness :
  exists o',
    objects (store (snd (replay ticks_B world_with_pair))) !! 1%nat = Some o' /\
    evolves (mkOrder "STOP_LIMIT" "SELL" 1 (Some 98%Q) (Some 98%Q) PENDING
                     None None None (Some 0%nat)) o'.
Proof.
  exact (proj1 (replay_evolves ticks_B world_with_pair 1%nat _ eq_refl)).
Defined.

(** ** No exception on well-formed worlds *)

Lemma observe_ok order ts p w :
  well_formed_store (store w) -> is_Some (objects (store w) !! order) ->
  fst (observe order ts p w) = Ok tt /\
  well_formed_store (store (snd (observe order ts p w))).
Proof.
  intros Hwf Hx.
  destruct (update_ok (store w) order ts p Hwf Hx) as [Hok Hwf'].
  split; [|by rewrite observe_store].
  rewrite observe_run.
  pose proof (proj2 (update_domain (store w) order ts p order) Hx) as [o Ho].
  destruct (update order ts p (store w)) as [r s1]. cbn in Hok, Hwf', Ho.
  subst r. rewrite Ho.
  destruct (status_eqb (status o) FILLED) eqn:Hst; [|done].
  destruct (Hwf' order o Ho) as ((_ & _ & _ & W4) & _).
  destruct W4 as [fp Hfp]; [by destruct (status o)|].
  rewrite (execute_fill_run order (mkWorld (backtester w) s1) o Ho).
  cbn zeta. rewrite Hfp. by destruct (is_buy o), (is_sell o).
Qed.

Lemma for_orders_ok l ts p w :
  well_formed_store (store w) ->
  Forall (fun r => is_Some (objects (store w) !! r)) l ->
  fst (for_orders l ts p w) = Ok tt /\
  well_formed_store (store (snd (for_orders l ts p w))) /\
  length (objects (store (snd (for_orders l ts p w))))
    = length (objects (store w)).
Proof.
  revert w. induction l as [|order rest IH]; intros w Hwf Hl; [done|].
  apply Forall_cons in Hl as [Hx Hrest].
  rewrite for_orders_cons.
  destruct (observe_ok order ts p w Hwf Hx) as [Hok Hwf'].
  pose proof (observe_store order ts p w) as Hs.
  destruct (observe order ts p w) as [r w1]. cbn in Hok, Hwf', Hs. subst r.
  assert (Hlen : length (objects (store w1)) = length (objects (store w)))
    by (rewrite Hs; apply update_length).
  destruct (IH w1 Hwf') as (H1 & H2 & H3).
  { eapply Forall_impl; [exact Hrest|]. intros r.
    rewrite !lookup_lt_is_Some. by rewrite Hlen. }
  split; [done|]. split; [done|]. by rewrite H3.
Qed.

Lemma Forall_filter_keep {A} (P : A -> Prop) (f : A -> bool) (l : list A) :
  Forall P l -> Forall P (List.filter f l).
Proof.
  induction 1 as [|a l Ha Hl IH]; [constructor|]. cbn.
  destruct (f a); [by constructor | done].
Qed.

Lemma tick_ok ts p w :
  well_formed_world w ->
  fst (tick ts p w) = Ok tt /\ well_formed_world (snd (tick ts p w)).
Proof.
  intros [Hwf Ho]. rewrite tick_run.
  destruct (for_orders_ok _ ts p w Hwf Ho) as (H1 & H2 & H3).
  pose proof (for_orders_ledger (_orders (backtester w)) ts p w)
    as (_ & _ & H4).
  destruct (for_orders _ ts p w) as [r w1]. cbn in H1, H2, H3, H4. subst r.
  cbn. split; [done|]. split; [done|]. cbn.
  rewrite H4. apply Forall_filter_keep.
  eapply Forall_impl; [exact Ho|]. intros r.
  rewrite !lookup_lt_is_Some. by rewrite H3.
Qed.

Lemma replay_ok data w :
  well_formed_world w ->
  fst (replay data w) = Ok tt /\ well_formed_world (snd (replay data w)).
Proof.
  revert w. induction data as [|[ts p] rest IH]; intros w Hw; [done|].
  cbn [replay]. unfold_M.
  destruct (tick_ok ts p w Hw) as [H1 H2].
  destruct (tick ts p w) as [r w1]. cbn in H1, H2. subst r.
  by apply IH.
Qed.

(** A replay raises nothing when every order of the store is well formed -
    as the constructor leaves it - and the open orders are orders of the
    store: no [TypeError] from a missing price or fill price. The world it
    leaves is again such a world. *)
Theorem replay_never_raises data w :
  well_formed_world w ->
  fst (replay data w) = Ok tt /\ well_formed_world (snd (replay data w)).
Proof. apply replay_ok. Qed.

Lemma replay_never_raises_witness :
  fst (replay ticks_B world_with_pair) = Ok tt.
Proof.
  exact (proj1 (replay_never_raises ticks_B world_with_pair
                  world_with_pair_well_formed)).
Defined.

(** ** Placing the pair *)

Lemma init_run ty sd q pr tr s :
  _validate (mkOrder (python.upper ty) (python.upper sd) q pr tr
                     PENDING None None None None) = Ok tt ->
  Order__init__ ty sd q pr tr s =
  let o := mkOrder (python.upper ty) (python.upper sd) q pr tr
                   PENDING None None None None in
  (Ok (length (objects s)),
   mkStore (objects s ++ [o]) (stdout s) (history s ++ [objects s ++ [o]])).
Proof. intros H. unfold Order__init__. by rewrite H. Qed.

Lemma link_run s a b oa ob :
  objects s !! a = Some oa ->
  <[a := set_oco_peer oa b]> (objects s) !! b = Some ob ->
  link_oco_peer a b s =
  let objs1 := <[a := set_oco_peer oa b]> (objects s) in
  let objs2 := <[b := set_oco_peer ob a]> objs1 in
  (Ok tt, mkStore objs2 (stdout s) (history s ++ [objs1; objs2])).
Proof.
  intros Ha Hb. unfold link_oco_peer. unfold_M.
  rewrite get_run, Ha, put_run, get_run. cbn [after_put objects].
  rewrite Hb, put_run. unfold after_put. cbn. by rewrite <- app_assoc.
Qed.

Lemma place_oco_order_run q tp sl w :
  let n := length (objects (store w)) in
  let b := backtester w in
  let s := store w in
  let o1 := mkOrder "LIMIT" "SELL" q (Some tp) None PENDING
                    None None None None in
  let o2 := mkOrder "STOP_LIMIT" "SELL" q (Some sl) (Some sl) PENDING
                    None None None None in
  let objs1 := objects s ++ [o1] in
  let objs2 := objs1 ++ [o2] in
  let objs3 := <[n := set_oco_peer o1 (S n)]> objs2 in
  let objs4 := <[S n := set_oco_peer o2 n]> objs3 in
  place_oco_order q tp sl w =
  (Ok tt,
   mkWorld (mkBacktester (initial_cash b) (cash b) (position_size b)
              (trade_log b) (_orders b ++ [n; S n]))
           (mkStore objs4 (stdout s ++ [print_Placed_OCO tp sl])
                    (history s ++ [objs1; objs2; objs3; objs4]))).
Proof.
  cbn zeta. destruct w as [b s]. cbn [store backtester].
  unfold place_oco_order. unfold_M. unfold call at 1. cbn [store backtester].
  rewrite init_run by reflexivity. cbn zeta.
  unfold call at 1. cbn [store backtester].
  rewrite init_run by reflexivity. cbn zeta. cbn [objects stdout history].
  unfold call at 1. cbn [store backtester].
  set (o1 := mkOrder (python.upper "LIMIT") _ _ _ _ _ _ _ _ _).
  set (o2 := mkOrder (python.upper "STOP_LIMIT") _ _ _ _ _ _ _ _ _).
  rewrite length_app. cbn [length].
  replace (length (objects s) + 1)%nat with (S (length (objects s))) by lia.
  rewrite (link_run _ (length (objects s)) (S (length (objects s))) o1 o2).
  - cbn. unfold assign, call, print. cbn. rewrite <- !app_assoc. reflexivity.
  - cbn [objects]. rewrite lookup_app_l by (rewrite length_app; cbn; lia).
    by apply list_lookup_middle.
  - cbn [objects]. rewrite list_lookup_insert_ne by lia.
    apply list_lookup_middle. rewrite length_app; cbn; lia.
Qed.

Lemma place_oco_order_objects q tp sl w :
  let n := length (objects (store w)) in
  objects (store (snd (place_oco_order q tp sl w))) =
  objects (store w)
    ++ [mkOrder "LIMIT" "SELL" q (Some tp) None PENDING None None None
                (Some (S n));
        mkOrder "STOP_LIMIT" "SELL" q (Some sl) (Some sl) PENDING
                None None None (Some n)].
Proof.
  cbn zeta. rewrite place_oco_order_run. cbn [snd store objects].
  rewrite <- app_assoc. cbn [app].
  rewrite (insert_app_r_alt (objects (store w))) by lia.
  rewrite Nat.sub_diag. cbn [insert list_insert].
  rewrite (insert_app_r_alt (objects (store w))) by lia.
  replace (S (length (objects (store w))) - length (objects (store w)))%nat
    with 1%nat by lia.
  reflexivity.
Qed.

Lemma place_oco_order_wf q tp sl w :
  well_formed_world w ->
  well_formed_world (snd (place_oco_order q tp sl w)).
Proof.
  intros [Hwf Ho].
  pose proof (place_oco_order_objects q tp sl w) as Hobj. cbn zeta in Hobj.
  assert (Hlen : length (objects (store (snd (place_oco_order q tp sl w))))
                 = S (S (length (objects (store w)))))
    by (rewrite Hobj, length_app; cbn; lia).
  split.
  - intros r o Hr. rewrite Hobj in Hr.
    apply lookup_app_Some in Hr as [Hr|[Hge Hr]].
    + destruct (Hwf r o Hr) as [W Hpeer]. split; [done|].
      intros peer Hp. apply lookup_lt_is_Some. rewrite Hlen.
      apply Hpeer, lookup_lt_is_Some in Hp. lia.
    + destruct (r - length (objects (store w)))%nat as [|[|k]];
        cbn in Hr; [| |discriminate]; injection Hr as <-.
      * split; [|intros peer [= <-]; apply lookup_lt_is_Some; lia].
        unfold well_formed; cbn.
        repeat split; intros; try discriminate; by eexists.
      * split; [|intros peer [= <-]; apply lookup_lt_is_Some; lia].
        unfold well_formed; cbn.
        repeat split; intros; try discriminate; by eexists.
  - rewrite place_oco_order_run. cbn [snd backtester store _orders objects].
    rewrite place_oco_order_run in Hlen.
    cbn [snd backtester store _orders objects] in Hlen.
    apply Forall_app. split.
    + eapply Forall_impl; [exact Ho|]. intros r.
      rewrite !lookup_lt_is_Some. lia.
    + repeat constructor; apply lookup_lt_is_Some; lia.
Qed.

(** [place_oco_order] raises nothing and adds two objects to the store,
    whatever is there already: a LIMIT SELL at the take-profit price and a
    STOP_LIMIT SELL whose limit and trigger are both the stop-loss price,
    PENDING, each naming the other as its peer. The objects that were there
    are untouched; the two are appended, in this order, to the open orders;
    cash, position and trade log are as before, and a well-formed world
    stays so. *)
Theorem place_oco_order_adds_linked_pair q tp sl w :
  let n := length (objects (store w)) in
  let w' := snd (place_oco_order q tp sl w) in
  fst (place_oco_order q tp sl w) = Ok tt /\
  objects (store w') =
    objects (store w)
      ++ [mkOrder "LIMIT" "SELL" q (Some tp) None PENDING None None None
                  (Some (S n));
          mkOrder "STOP_LIMIT" "SELL" q (Some sl) (Some sl) PENDING
                  None None None (Some n)] /\
  _orders (backtester w') = _orders (backtester w) ++ [n; S n] /\
  cash (backtester w') = cash (backtester w) /\
  position_size (backtester w') = position_size (backtester w) /\
  trade_log (backtester w') = trade_log (backtester w) /\
  (well_formed_world w -> well_formed_world w').
Proof.
  cbn zeta. split; [by rewrite place_oco_order_run|].
  split; [apply place_oco_order_objects|].
  split; [by rewrite place_oco_order_run|].
  split; [by rewrite place_oco_order_run|].
  split; [by rewrite place_oco_order_run|].
  split; [by rewrite place_oco_order_run|].
  apply place_oco_order_wf.
Qed.

(** ** Running on any well-formed world *)

(** [run] raises [IndexError] on data without a row, having changed nothing
    but the output. On any other data, from a world of well-formed orders,
    it raises nothing and leaves such a world: with a row to read the first
    price from, nothing in [run] can fail. *)
Theorem run_raises_only_on_empty_data data w :
  well_formed_world w ->
  match data with
  | [] => fst (run data w) = Raised IndexError /\
          backtester (snd (run data w)) = backtester w /\
          objects (store (snd (run data w))) = objects (store w)
  | _ :: _ => fst (run data w) = Ok tt /\
              well_formed_world (snd (run data w))
  end.
Proof.
  intros Hw. destruct data as [|[t0 p0] rest]; [done|].
  unfold run. unfold_M. unfold call, print, assign.
  cbn -[replay place_oco_order Qmult Qminus].
  match goal with
  | |- context [place_oco_order ?q ?a ?b ?w1] =>
      assert (Hw1 : well_formed_world w1) by (destruct Hw; by split);
      pose proof (place_oco_order_wf q a b w1 Hw1) as Hw2;
      rewrite (place_oco_order_run q a b w1) in *
  end.
  cbn zeta in *.
  match goal with
  | |- context [replay ?d ?w2] =>
      destruct (replay_ok d w2 Hw2) as [H1 H2];
      destruct (replay d w2) as [r w3]
  end.
  cbn in H1. subst r. cbn. split; [done|]. destruct H2. by split.
Qed.

Lemma run_raises_only_on_empty_data_witness :
  fst (run ticks_B world_with_pair) = Ok tt.
Proof.
  exact (proj1 (run_raises_only_on_empty_data ticks_B world_with_pair
                  world_with_pair_well_formed)).
Defined.

(** ** The pair placed by [run] *)









End replay_more.
